(** * CXWindowsScreen: timers, event dispatch, clipboards, main loop

    A shallow embedding of [src/platform/CXWindowsScreen.cpp] and the
    properties its specification states about it.

    Conventions.
    - [double] values (timer periods, remaining times, the stopwatch) are
      exact rationals [Q]: every finite double is one, and the source
      itself sets floating point round off aside ("except for floating
      point round off which we'll ignore").
    - [SInt32] values are [Z] with the wrap-around written out.
    - Pointers to collaborators ([IJob*]) are addresses, [NULL] is [0].
    - A failed [assert], a read past the end of an array and a loop that
      never ends have no result: [None].
    - Calls to collaborators (receiver, event handler, screen saver, X
      server) are recorded, in order, in a trace of [Effect]s. *)

From Stdlib Require Import ZArith QArith Lqa List Bool Lia.
From Stdlib Require String.
From stdpp Require Import base list.
Import String.StringSyntax.

Delimit Scope string_scope with string.

Local Open Scope Q_scope.

(** ** CXWindowsScreen::CTimer *)

(** [IJob*]: the address of a job object. *)
Definition IJob := N.
Definition NULL : IJob := 0%N.

Record CTimer := mkCTimer {
  m_job : IJob;
  m_timeout : Q;
  m_time : Q
}.

(** [CTimer::reset]: [m_time = m_timeout]. *)
Definition CTimer_reset (t : CTimer) : CTimer :=
  {| m_job := m_job t; m_timeout := m_timeout t; m_time := m_timeout t |}.

(** [CTimer::CTimer(job, timeout)]: both [assert]s, then [reset()]. *)
Definition CTimer_new (job : IJob) (timeout : Q) : option CTimer :=
  if N.eqb job NULL then None
  else if Qle_bool timeout 0 then None
  else Some (CTimer_reset {| m_job := job; m_timeout := timeout; m_time := 0 |}).

(** [CTimer::operator-=(dt)]. *)
Definition CTimer_sub (dt : Q) (t : CTimer) : CTimer :=
  {| m_job := m_job t; m_timeout := m_timeout t; m_time := m_time t - dt |}.

(** [getJob()]. *)
Definition getJob (t : CTimer) : IJob := m_job t.

(** [CTimer::operator<]. *)
Definition CTimer_lt (a b : CTimer) : Prop := m_time a < m_time b.

(** An entry is due when its remaining time is at or below zero. *)
Definition due (t : CTimer) : Prop := m_time t <= 0.

#[global] Instance Qle_decision (x y : Q) : Decision (x <= y).
Proof.
  destruct (Qle_bool x y) eqn:E.
  - left. now apply Qle_bool_iff.
  - right. intros H. apply Qle_bool_iff in H. congruence.
Defined.

#[global] Instance due_decision (t : CTimer) : Decision (due t).
Proof. unfold due. apply _. Defined.

(** ** CTimerPriorityQueue *)

(** Modelled from the spec: the priority queue type [CTimerPriorityQueue]
    is declared in a header that is not part of the sources.  The spec
    keeps the entries "in a min-ordering structure keyed by [remaining]":
    the container is the sequence of entries in iteration order, [top] is
    an entry of least remaining time (the first such one), [pop] removes
    that entry, [push] appends, and [swap] installs a new container. *)
Definition CTimerPriorityQueue := list CTimer.

Fixpoint pq_top (q : list CTimer) : option CTimer :=
  match q with
  | [] => None
  | t :: q' =>
      match pq_top q' with
      | None => Some t
      | Some u => if Qle_bool (m_time t) (m_time u) then Some t else Some u
      end
  end.

Fixpoint pq_pop (q : list CTimer) : list CTimer :=
  match q with
  | [] => []
  | t :: q' =>
      match pq_top q' with
      | None => []
      | Some u => if Qle_bool (m_time t) (m_time u) then q' else t :: pq_pop q'
      end
  end.

Definition pq_push (t : CTimer) (q : list CTimer) : list CTimer := q ++ [t].

Definition pq_swap (tmp : list CTimer) : list CTimer := tmp.

Definition pq_empty (q : list CTimer) : bool :=
  match q with [] => true | _ => false end.

(** ** The timer part of the screen *)

(** [m_timers], the stopwatch [m_time] (seconds since its last [reset];
    named [m_stopwatch] here because [CTimer] has an [m_time] too), and
    how many [CLock]s currently hold [m_timersMutex]. *)
Record Timers := mkTimers {
  m_timers : list CTimer;
  m_stopwatch : Q;
  m_timersMutex : nat
}.

Definition set_timers (q : list CTimer) (s : Timers) : Timers :=
  {| m_timers := q; m_stopwatch := m_stopwatch s; m_timersMutex := m_timersMutex s |}.

(** [CLock lock(&m_timersMutex)] and the end of its scope. *)
Definition CLock_acquire (s : Timers) : Timers :=
  {| m_timers := m_timers s; m_stopwatch := m_stopwatch s;
     m_timersMutex := S (m_timersMutex s) |}.

Definition CLock_release (s : Timers) : Timers :=
  {| m_timers := m_timers s; m_stopwatch := m_stopwatch s;
     m_timersMutex := pred (m_timersMutex s) |}.

(** [m_time.reset()]. *)
Definition stopwatch_reset (s : Timers) : Timers :=
  {| m_timers := m_timers s; m_stopwatch := 0; m_timersMutex := m_timersMutex s |}.

(** Time passing: the stopwatch runs on. *)
Definition elapse (dt : Q) (s : Timers) : Timers :=
  {| m_timers := m_timers s; m_stopwatch := m_stopwatch s + dt;
     m_timersMutex := m_timersMutex s |}.

(** [removeTimerNoLock]: keep the entries of every other job, swap the
    new container in. *)
Definition removeTimerNoLock (job : IJob) (s : Timers) : Timers :=
  set_timers (pq_swap (filter (λ t, getJob t ≠ job) (m_timers s))) s.

(** [removeTimer]. *)
Definition removeTimer (job : IJob) (s : Timers) : Timers :=
  CLock_release (removeTimerNoLock job (CLock_acquire s)).

(** [addTimer]: the old entries of [job] go first, then the new entry is
    built (its constructor asserts) and pushed. *)
Definition addTimer (job : IJob) (timeout : Q) (s : Timers) : option Timers :=
  let s1 := removeTimerNoLock job (CLock_acquire s) in
  match CTimer_new job timeout with
  | None => None
  | Some t => Some (CLock_release (set_timers (pq_push t (m_timers s1)) s1))
  end.

(** The [while (m_timers.top() <= 0.0)] loop of [processTimers]: the top
    entry's job is saved, the entry reset, popped and pushed back.  The
    loop may run for ever (an entry whose period is not positive is due
    again as soon as it is reset), hence the fuel. *)
Fixpoint rearm (fuel : nat) (q : list CTimer) (jobs : list IJob)
  : option (list CTimer * list IJob) :=
  match fuel with
  | O => None
  | S fuel' =>
      match pq_top q with
      | None => None
      | Some timer =>
          if Qle_bool (m_time timer) 0
          then rearm fuel' (pq_push (CTimer_reset timer) (pq_pop q))
                     (jobs ++ [getJob timer])
          else Some (q, jobs)
      end
  end.

(** The block of [processTimers] that runs under [m_timersMutex].
    [None] inside the result is the early [return false]; otherwise it
    carries the vector [jobs].  One more round than there are entries is
    all the loop can need: it only runs longer when it runs for ever. *)
Definition processTimers_locked (s : Timers)
  : option (Timers * option (list IJob)) :=
  let s1 := CLock_acquire s in
  let time := m_stopwatch s1 in
  match pq_top (m_timers s1) with
  | None => Some (CLock_release s1, None)
  | Some t =>
      if Qle_bool (m_time t) time then
        let q1 := map (CTimer_sub time) (m_timers s1) in
        match rearm (S (length q1)) q1 [] with
        | None => None
        | Some (q2, jobs) =>
            Some (CLock_release (stopwatch_reset (set_timers q2 s1)), Some jobs)
        end
      else Some (CLock_release s1, None)
  end.

(** ** Jobs *)

(** What a job's [run()] does to the timers: a sequence of calls of the
    screen's public timer interface. *)
Inductive TimerCall :=
| CallAddTimer (job : IJob) (timeout : Q)
| CallRemoveTimer (job : IJob).

Definition run_call (c : TimerCall) (s : Timers) : option Timers :=
  match c with
  | CallAddTimer job timeout => addTimer job timeout s
  | CallRemoveTimer job => Some (removeTimer job s)
  end.

Fixpoint run_calls (cs : list TimerCall) (s : Timers) : option Timers :=
  match cs with
  | [] => Some s
  | c :: cs' =>
      match run_call c s with
      | None => None
      | Some s' => run_calls cs' s'
      end
  end.

(** One [run()] of a job in the final loop: which job, and the timers
    as the job found them. *)
Record Invocation := mkInvocation {
  inv_job : IJob;
  inv_state : Timers
}.

(** The [for] loop over [jobs] at the end of [processTimers]. *)
Fixpoint run_jobs (bodies : IJob → list TimerCall) (jobs : list IJob) (s : Timers)
  : option (Timers * list Invocation) :=
  match jobs with
  | [] => Some (s, [])
  | j :: jobs' =>
      match run_calls (bodies j) s with
      | None => None
      | Some s1 =>
          match run_jobs bodies jobs' s1 with
          | None => None
          | Some (s2, log) => Some (s2, mkInvocation j s :: log)
          end
      end
  end.

(** [processTimers].  The value returned is [Some false] on the early
    return and unspecified ([None]) when control runs off the end of the
    function after the jobs. *)
Definition processTimers (bodies : IJob → list TimerCall) (s : Timers)
  : option (option bool * Timers * list Invocation) :=
  match processTimers_locked s with
  | None => None
  | Some (s1, None) => Some (Some false, s1, [])
  | Some (s1, Some jobs) =>
      match run_jobs bodies jobs s1 with
      | None => None
      | Some (s2, log) => Some (None, s2, log)
      end
  end.

Local Close Scope Q_scope.

(** ** X types *)

Definition Window := N.
Definition Atom := N.
Definition Time := N.
Definition Display := N.
Definition ClipboardID := nat.

(** Xlib's [None] and [CurrentTime]. *)
Definition XNone : N := 0%N.
Definition CurrentTime : Time := 0%N.
(** [PropertyDelete] of X.h. *)
Definition PropertyDelete : Z := 1%Z.

(** The events [onPreDispatch] tells apart, each with the fields it reads. *)
Inductive XEvent :=
| MappingNotify
| SelectionClear (selection : Atom) (time : Time)
| SelectionNotify (requestor : Window) (property : Atom)
| SelectionRequest (owner requestor : Window) (selection target : Atom)
                   (time : Time) (property : Atom)
| PropertyNotify (window : Window) (time : Time) (atom : Atom) (state : Z)
| ClientMessage (message_type : Atom) (format : Z) (data_l0 : Z)
| DestroyNotify (window : Window)
| OtherEvent (type : Z).

(** ** Clipboards *)

Definition EFormat := nat.
(** What an [IClipboard] holds: the data of each format it has.  [[]] is
    a clipboard with no content. *)
Definition Data := list (EFormat * list Z).

Record TransferRequest := mkTransferRequest {
  req_owner : Window;
  req_requestor : Window;
  req_target : Atom;
  req_time : Time;
  req_property : Atom
}.

(** Modelled from the spec: the class [CXWindowsClipboard] is not part of
    the sources.  A channel has its native window and selection, the
    content currently available, the "pendingRequests: ordered sequence of
    TransferRequest", whether it is open and at which time, the
    completion signals it has sent to requestors, and the
    "ownershipState: {Unowned, Owned}" ([cb_owned] is [true] for Owned). *)
Record CXWindowsClipboard := mkClipboard {
  cb_window : Window;
  cb_selection : Atom;
  cb_content : Data;
  cb_requests : list TransferRequest;
  cb_opened : option Time;
  cb_sent : list Window;
  cb_owned : bool
}.

Definition getWindow (c : CXWindowsClipboard) : Window := cb_window c.
Definition getSelection (c : CXWindowsClipboard) : Atom := cb_selection c.

(** Modelled from the spec: [CXWindowsClipboard::open(time)].  "If
    ownership cannot be asserted (backend refuses), setContent returns
    false without side effects": the call fails, changing nothing, when
    the backend does not grant it. *)
Definition clipboard_open (granted : bool) (time : Time) (c : CXWindowsClipboard)
  : bool * CXWindowsClipboard :=
  if granted
  then (true, {| cb_window := cb_window c; cb_selection := cb_selection c;
                 cb_content := cb_content c; cb_requests := cb_requests c;
                 cb_opened := Some time; cb_sent := cb_sent c;
                 cb_owned := cb_owned c |})
  else (false, c).

(** Modelled from the spec: [CXWindowsClipboard::empty()], "clear its
    content".  Opening, clearing and closing is how the spec has a channel
    give up its selection ("ownership fully relinquished, content
    cleared"): the cleared channel is Unowned. *)
Definition clipboard_empty (c : CXWindowsClipboard) : CXWindowsClipboard :=
  {| cb_window := cb_window c; cb_selection := cb_selection c;
     cb_content := []; cb_requests := cb_requests c;
     cb_opened := cb_opened c; cb_sent := cb_sent c;
     cb_owned := false |}.

(** Modelled from the spec: [CXWindowsClipboard::add], publishing
    content: a channel given data "asserts ownership and publishes
    content", it is Owned. *)
Definition clipboard_add (d : Data) (c : CXWindowsClipboard) : CXWindowsClipboard :=
  {| cb_window := cb_window c; cb_selection := cb_selection c;
     cb_content := cb_content c ++ d; cb_requests := cb_requests c;
     cb_opened := cb_opened c; cb_sent := cb_sent c;
     cb_owned := true |}.

(** Modelled from the spec: [CXWindowsClipboard::close()], "close it". *)
Definition clipboard_close (c : CXWindowsClipboard) : CXWindowsClipboard :=
  {| cb_window := cb_window c; cb_selection := cb_selection c;
     cb_content := cb_content c; cb_requests := cb_requests c;
     cb_opened := None; cb_sent := cb_sent c; cb_owned := cb_owned c |}.

Definition from_requestor (w : Window) (r : TransferRequest) : Prop :=
  req_requestor r = w.

#[global] Instance from_requestor_decision w r : Decision (from_requestor w r).
Proof. unfold from_requestor. apply _. Defined.

(** Whether the channel holds a transfer request of this requestor. *)
Definition has_request (w : Window) (c : CXWindowsClipboard) : bool :=
  existsb (λ r, N.eqb (req_requestor r) w) (cb_requests c).

(** Modelled from the spec: [CXWindowsClipboard::destroyRequest].  "Purge
    any TransferRequests whose requestor window matches", "discarded
    silently -- no completion signal is sent".  Its result, which the
    screen's loop tests ("until one returns success"), is whether the
    channel had a request of that window. *)
Definition destroyRequest (requestor : Window) (c : CXWindowsClipboard)
  : bool * CXWindowsClipboard :=
  (has_request requestor c,
   {| cb_window := cb_window c; cb_selection := cb_selection c;
      cb_content := cb_content c;
      cb_requests := filter (λ r, ¬ from_requestor requestor r) (cb_requests c);
      cb_opened := cb_opened c; cb_sent := cb_sent c; cb_owned := cb_owned c |}).

(** Modelled from the spec: [CClipboard::copy(dst, src, time)] with the
    channel as destination ("asserts ownership and publishes content"):
    the channel is opened at [time], emptied, given the source's data and
    closed; nothing happens when it cannot be opened. *)
Definition CClipboard_copy_to (granted : bool) (time : Time)
    (dst : CXWindowsClipboard) (src : Data) : bool * CXWindowsClipboard :=
  match clipboard_open granted time dst with
  | (false, dst') => (false, dst')
  | (true, dst') => (true, clipboard_close (clipboard_add src (clipboard_empty dst')))
  end.

(** Modelled from the spec: [CClipboard::copy(dst, src, time)] with the
    channel as source ("copies out the currently available content ... at
    a valid timestamp"): the destination is emptied and receives the
    channel's content; it is left alone when the channel cannot be
    opened. *)
Definition CClipboard_copy_from (granted : bool) (time : Time)
    (dst : Data) (src : CXWindowsClipboard) : bool * Data * CXWindowsClipboard :=
  match clipboard_open granted time src with
  | (false, src') => (false, dst, src')
  | (true, src') => (true, cb_content src', clipboard_close src')
  end.

(** ** Collaborators *)

(** What the code leaves to others: the clipboard methods that no claim
    depends on and whose code is not in the sources, the answers of the X
    server (its time, a positive number of milliseconds, among them), the
    answer of the event handler, and what each job does. *)
Record Environment := mkEnvironment {
  clipboard_lost : Time → CXWindowsClipboard → CXWindowsClipboard;
  clipboard_addRequest :
    Window → Window → Atom → Time → Atom → CXWindowsClipboard → CXWindowsClipboard;
  clipboard_processRequest :
    Window → Time → Atom → CXWindowsClipboard → bool * CXWindowsClipboard;
  server_time : Window → positive;
  open_granted : Time → CXWindowsClipboard → bool;
  XQueryPointer : Window → option (Z * Z);
  eventHandler_onPreDispatch : XEvent → bool;
  job_run : IJob → list TimerCall
}.

(** Modelled from the spec: [CXWindowsUtil::getCurrentTime(display,
    window)], which is not part of the sources, is the backend's
    "timestamp-fetch": "a real timestamp must be fetched from the backend
    first", one that is never the "wildcard/current" sentinel.
    [CurrentTime] is 0, the server's time is not. *)
Definition getCurrentTime (env : Environment) (w : Window) : Time :=
  Npos (server_time env w).

(** Calls to collaborators, in the order they are made. *)
Inductive Effect :=
| EXRefreshKeyboardMapping
| EOnGrabClipboard (id : ClipboardID)
| EXDeleteProperty (requestor : Window) (property : Atom)
| EOnScreensaver (activated : bool)
| EScreensaverOnPreDispatch (e : XEvent)
| EHandlerOnPreDispatch (e : XEvent)
| EHandlerOnEvent (e : XEvent)
| EGetCurrentTime (w : Window)
| EClipboardOpen (id : ClipboardID) (time : Time)
| EClipboardEmpty (id : ClipboardID)
| EClipboardClose (id : ClipboardID)
| EClipboardCopy (id : ClipboardID) (time : Time)
| EJobRun (job : IJob)
| ELog (critical : bool)
| EOnError (display : option Display).

(** ** The screen *)

(** The members of [CXWindowsScreen] the modelled functions use;
    [x_pending] is the queue of events of the display connection
    ([XPending], [XNextEvent]).  The array [m_clipboard] has [kClipboardEnd]
    slots, so its length stands for that constant. *)
Record CXWindowsScreen := mkScreen {
  m_display : option Display;
  m_root : Window;
  m_stop : bool;
  m_window : Window;
  m_x : Z;
  m_y : Z;
  m_w : Z;
  m_h : Z;
  m_clipboard : list (option CXWindowsClipboard);
  m_atomScreensaver : Atom;
  timers : Timers;
  x_pending : list XEvent
}.

Definition kClipboardEnd (s : CXWindowsScreen) : ClipboardID := length (m_clipboard s).

Definition set_display (d : option Display) (s : CXWindowsScreen) : CXWindowsScreen :=
  {| m_display := d; m_root := m_root s; m_stop := m_stop s; m_window := m_window s;
     m_x := m_x s; m_y := m_y s; m_w := m_w s; m_h := m_h s;
     m_clipboard := m_clipboard s; m_atomScreensaver := m_atomScreensaver s;
     timers := timers s; x_pending := x_pending s |}.

Definition set_stop (b : bool) (s : CXWindowsScreen) : CXWindowsScreen :=
  {| m_display := m_display s; m_root := m_root s; m_stop := b; m_window := m_window s;
     m_x := m_x s; m_y := m_y s; m_w := m_w s; m_h := m_h s;
     m_clipboard := m_clipboard s; m_atomScreensaver := m_atomScreensaver s;
     timers := timers s; x_pending := x_pending s |}.

Definition set_clipboards (cbs : list (option CXWindowsClipboard)) (s : CXWindowsScreen)
  : CXWindowsScreen :=
  {| m_display := m_display s; m_root := m_root s; m_stop := m_stop s;
     m_window := m_window s;
     m_x := m_x s; m_y := m_y s; m_w := m_w s; m_h := m_h s;
     m_clipboard := cbs; m_atomScreensaver := m_atomScreensaver s;
     timers := timers s; x_pending := x_pending s |}.

Definition set_screen_timers (t : Timers) (s : CXWindowsScreen) : CXWindowsScreen :=
  {| m_display := m_display s; m_root := m_root s; m_stop := m_stop s;
     m_window := m_window s;
     m_x := m_x s; m_y := m_y s; m_w := m_w s; m_h := m_h s;
     m_clipboard := m_clipboard s; m_atomScreensaver := m_atomScreensaver s;
     timers := t; x_pending := x_pending s |}.

Definition set_pending (q : list XEvent) (s : CXWindowsScreen) : CXWindowsScreen :=
  {| m_display := m_display s; m_root := m_root s; m_stop := m_stop s;
     m_window := m_window s;
     m_x := m_x s; m_y := m_y s; m_w := m_w s; m_h := m_h s;
     m_clipboard := m_clipboard s; m_atomScreensaver := m_atomScreensaver s;
     timers := timers s; x_pending := q |}.

(** [updateScreenShape], from the width and height the server reports. *)
Definition updateScreenShape (width height : Z) (s : CXWindowsScreen) : CXWindowsScreen :=
  {| m_display := m_display s; m_root := m_root s; m_stop := m_stop s;
     m_window := m_window s;
     m_x := 0; m_y := 0; m_w := width; m_h := height;
     m_clipboard := m_clipboard s; m_atomScreensaver := m_atomScreensaver s;
     timers := timers s; x_pending := x_pending s |}.

(** [exitMainLoop]: [m_stop = true], under the lock. *)
Definition exitMainLoop (s : CXWindowsScreen) : CXWindowsScreen := set_stop true s.

(** [getClipboardID]: the first bound clipboard with this selection, or
    [kClipboardEnd]. *)
Fixpoint getClipboardID_from (id : ClipboardID)
    (cbs : list (option CXWindowsClipboard)) (selection : Atom) : ClipboardID :=
  match cbs with
  | [] => id
  | Some c :: rest =>
      if N.eqb (getSelection c) selection then id
      else getClipboardID_from (S id) rest selection
  | None :: rest => getClipboardID_from (S id) rest selection
  end.

Definition getClipboardID (s : CXWindowsScreen) (selection : Atom) : ClipboardID :=
  getClipboardID_from 0 (m_clipboard s) selection.

(** [setClipboard(id, clipboard)]; [clipboard] is [None] for a null
    pointer. *)
Definition setClipboard (env : Environment) (id : ClipboardID)
    (clipboard : option Data) (s : CXWindowsScreen)
  : option (bool * CXWindowsScreen * list Effect) :=
  match m_clipboard s !! id with
  | None => None
  | Some None => Some (false, s, [])
  | Some (Some c) =>
      let timestamp := getCurrentTime env (getWindow c) in
      let granted := open_granted env timestamp c in
      match clipboard with
      | Some data =>
          let '(ok, c') := CClipboard_copy_to granted timestamp c data in
          Some (ok, set_clipboards (<[id := Some c']> (m_clipboard s)) s,
                [EGetCurrentTime (getWindow c); EClipboardCopy id timestamp])
      | None =>
          match clipboard_open granted timestamp c with
          | (false, c') =>
              Some (false, set_clipboards (<[id := Some c']> (m_clipboard s)) s,
                    [EGetCurrentTime (getWindow c); EClipboardOpen id timestamp])
          | (true, c') =>
              Some (true,
                    set_clipboards
                      (<[id := Some (clipboard_close (clipboard_empty c'))]> (m_clipboard s)) s,
                    [EGetCurrentTime (getWindow c); EClipboardOpen id timestamp;
                     EClipboardEmpty id; EClipboardClose id])
          end
      end
  end.

(** [getClipboard(id, clipboard)]; the destination must not be null. *)
Definition getClipboard (env : Environment) (id : ClipboardID)
    (clipboard : option Data) (s : CXWindowsScreen)
  : option (bool * Data * CXWindowsScreen * list Effect) :=
  match clipboard with
  | None => None
  | Some dst =>
      match m_clipboard s !! id with
      | None => None
      | Some None => Some (false, dst, s, [])
      | Some (Some c) =>
          let timestamp := getCurrentTime env (getWindow c) in
          let '(ok, dst', c') :=
            CClipboard_copy_from (open_granted env timestamp c) timestamp dst c in
          Some (ok, dst', set_clipboards (<[id := Some c']> (m_clipboard s)) s,
                [EGetCurrentTime (getWindow c); EClipboardCopy id timestamp])
      end
  end.

(** Arithmetic on [SInt32] wraps around. *)
Definition SInt32_wrap (z : Z) : Z := ((z + 2 ^ 31) mod 2 ^ 32 - 2 ^ 31)%Z.

Definition in_SInt32 (z : Z) : Prop := (- 2 ^ 31 <= z < 2 ^ 31)%Z.

(** [getRoot]. *)
Definition getRoot (s : CXWindowsScreen) : option Window :=
  match m_display s with
  | None => None
  | Some _ => Some (m_root s)
  end.

(** [getCursorCenter]. *)
Definition getCursorCenter (s : CXWindowsScreen) : option (Z * Z) :=
  match m_display s with
  | None => None
  | Some _ =>
      Some (SInt32_wrap (m_x s + Z.shiftr (m_w s) 1),
            SInt32_wrap (m_y s + Z.shiftr (m_h s) 1))
  end.

(** [getCursorPos]. *)
Definition getCursorPos (env : Environment) (s : CXWindowsScreen) : option (Z * Z) :=
  match m_display s with
  | None => None
  | Some _ =>
      match getRoot s with
      | None => None
      | Some root =>
          match XQueryPointer env root with
          | Some (mx, my) => Some (mx, my)
          | None => getCursorCenter s
          end
      end
  end.

(** The loop of [processClipboardRequest]: "check every clipboard until
    one returns success". *)
Fixpoint processRequest_loop (env : Environment) (requestor : Window)
    (time : Time) (property : Atom) (cbs : list (option CXWindowsClipboard))
  : list (option CXWindowsClipboard) :=
  match cbs with
  | [] => []
  | None :: rest => None :: processRequest_loop env requestor time property rest
  | Some c :: rest =>
      let '(ok, c') := clipboard_processRequest env requestor time property c in
      if ok then Some c' :: rest
      else Some c' :: processRequest_loop env requestor time property rest
  end.

Definition processClipboardRequest (env : Environment) (requestor : Window)
    (time : Time) (property : Atom) (s : CXWindowsScreen) : CXWindowsScreen :=
  set_clipboards (processRequest_loop env requestor time property (m_clipboard s)) s.

(** The loop of [destroyClipboardRequest]: it too leaves at the first
    clipboard whose [destroyRequest] returns success. *)
Fixpoint destroyRequest_loop (requestor : Window)
    (cbs : list (option CXWindowsClipboard)) : list (option CXWindowsClipboard) :=
  match cbs with
  | [] => []
  | None :: rest => None :: destroyRequest_loop requestor rest
  | Some c :: rest =>
      let '(ok, c') := destroyRequest requestor c in
      if ok then Some c' :: rest
      else Some c' :: destroyRequest_loop requestor rest
  end.

Definition destroyClipboardRequest (requestor : Window) (s : CXWindowsScreen)
  : CXWindowsScreen :=
  set_clipboards (destroyRequest_loop requestor (m_clipboard s)) s.

(** What follows the [switch] of [onPreDispatch]: the screen saver has a
    go, then the event handler decides.  This is the open screen, where
    [m_screensaver] points to the object [open] made; on a screen that is
    not open the pointer is null and the call through it is undefined,
    which is left out here. *)
Definition onPreDispatch_default (env : Environment) (e : XEvent) (s : CXWindowsScreen)
  : option (bool * CXWindowsScreen * list Effect) :=
  Some (eventHandler_onPreDispatch env e, s,
        [EScreensaverOnPreDispatch e; EHandlerOnPreDispatch e]).

Definition prepend_effects (pre : list Effect)
    (r : option (bool * CXWindowsScreen * list Effect))
  : option (bool * CXWindowsScreen * list Effect) :=
  match r with
  | None => None
  | Some (b, s, eff) => Some (b, s, pre ++ eff)
  end.

(** [onPreDispatch]. *)
Definition onPreDispatch (env : Environment) (e : XEvent) (s : CXWindowsScreen)
  : option (bool * CXWindowsScreen * list Effect) :=
  match e with
  | MappingNotify =>
      prepend_effects [EXRefreshKeyboardMapping] (onPreDispatch_default env e s)
  | SelectionClear selection time =>
      let id := getClipboardID s selection in
      if Nat.eqb id (kClipboardEnd s) then onPreDispatch_default env e s
      else
        match m_clipboard s !! id with
        | Some (Some c) =>
            Some (true,
                  set_clipboards (<[id := Some (clipboard_lost env time c)]> (m_clipboard s)) s,
                  [EOnGrabClipboard id])
        | _ => None
        end
  | SelectionNotify requestor property =>
      if N.eqb property XNone then Some (true, s, [])
      else Some (true, s, [EXDeleteProperty requestor property])
  | SelectionRequest owner requestor selection target time property =>
      let id := getClipboardID s selection in
      if Nat.eqb id (kClipboardEnd s) then onPreDispatch_default env e s
      else
        match m_clipboard s !! id with
        | Some (Some c) =>
            Some (true,
                  set_clipboards
                    (<[id := Some (clipboard_addRequest env owner requestor target
                                     time property c)]> (m_clipboard s)) s,
                  [])
        | _ => None
        end
  | PropertyNotify window time atom state =>
      if Z.eqb state PropertyDelete
      then Some (true, processClipboardRequest env window time atom s, [])
      else onPreDispatch_default env e s
  | ClientMessage message_type format data_l0 =>
      if N.eqb message_type (m_atomScreensaver s) || Z.eqb format 32
      then Some (true, s, [EOnScreensaver (negb (Z.eqb data_l0 0))])
      else onPreDispatch_default env e s
  | DestroyNotify window =>
      onPreDispatch_default env e (destroyClipboardRequest window s)
  | OtherEvent _ => onPreDispatch_default env e s
  end.

(** How a function ends: it returns, or the process exits. *)
Inductive Control :=
| Returns
| Exits (status : Z).

(** [ioErrorHandler], a static function that finds the screen through
    [s_screen].  [EOnError] carries the [m_display] the receiver finds. *)
Definition ioErrorHandler (s_screen : option CXWindowsScreen)
  : option (CXWindowsScreen * list Effect * Control) :=
  match s_screen with
  | None => None
  | Some s =>
      let s' := set_display None s in
      Some (s', [ELog false; EOnError (m_display s'); ELog true], Exits 17)
  end.

(** ** The main loop *)

(** Calls of the screen's interface made while [mainLoop] has released
    [m_mutex], by other threads or by the event handler and the receiver
    from inside their callbacks: the calls that touch what the loop
    reads, [exitMainLoop] for [m_stop] and the timer interface for
    [m_timers]. *)
Inductive ExternalCall :=
| ExtExitMainLoop
| ExtTimer (c : TimerCall).

Definition run_external (c : ExternalCall) (s : CXWindowsScreen) : option CXWindowsScreen :=
  match c with
  | ExtExitMainLoop => Some (exitMainLoop s)
  | ExtTimer tc =>
      match run_call tc (timers s) with
      | None => None
      | Some t => Some (set_screen_timers t s)
      end
  end.

Fixpoint run_externals (cs : list ExternalCall) (s : CXWindowsScreen)
  : option CXWindowsScreen :=
  match cs with
  | [] => Some s
  | c :: cs' =>
      match run_external c s with
      | None => None
      | Some s' => run_externals cs' s'
      end
  end.

(** What happens while one event is dispatched with [m_mutex] released
    (the calls of [onPreDispatch] and [onEvent]): the calls made
    meanwhile, and the events reaching the connection. *)
Record Dispatch := mkDispatch {
  d_calls : list ExternalCall;
  d_arrivals : list XEvent
}.

(** What happens in one round of the loop.  While the loop's thread is
    inside [poll] with [m_mutex] released: calls by other threads, events
    reaching the connection, whether the loop's thread is cancelled, and
    the time that goes by.  Then, for each event dispatched in this
    round, what happens during its dispatch. *)
Record Wait := mkWait {
  w_calls : list ExternalCall;
  w_arrivals : list XEvent;
  w_cancel : bool;
  w_elapsed : Q;
  w_dispatch : list Dispatch
}.

Inductive PollResult :=
| PollEvent
| PollTimeout
| PollCancelled
| PollBlocked.

(** Modelled from the spec: the wait [poll(pfds, 1, timeout)] is the
    backend's "waitForEvent(ConnectionHandle, timeoutMillis) -> Event |
    Timeout | Cancelled".  A negative timeout waits without limit; then,
    with no event and no cancellation, the call does not return. *)
Definition poll (pending : list XEvent) (timeout : Z) (w : Wait) : PollResult :=
  if w_cancel w then PollCancelled
  else
    match pending ++ w_arrivals w with
    | _ :: _ => PollEvent
    | [] => if (0 <=? timeout)%Z then PollTimeout else PollBlocked
    end.

(** [static_cast<int>] of a double: the value is truncated toward zero.
    When the truncated value is not an [int] the conversion is undefined
    (common hardware answers [INT_MIN]): no result. *)
Definition double_to_int (q : Q) : option Z :=
  let z := Z.quot (Qnum q) (Zpos (Qden q)) in
  if ((- 2 ^ 31 <=? z) && (z <? 2 ^ 31))%Z then Some z else None.

(** The timeout [mainLoop] computes: [-1] without timers, else the top
    timer's remaining time in milliseconds, converted to [int]. *)
Definition poll_timeout (q : list CTimer) : option Z :=
  match pq_top q with
  | None => Some (-1)%Z
  | Some t => double_to_int (1000 * m_time t)%Q
  end.

(** The state when [poll] is over. *)
Definition after_wait (w : Wait) (s : CXWindowsScreen) : option CXWindowsScreen :=
  match run_externals (w_calls w) s with
  | None => None
  | Some s1 =>
      Some (set_pending (x_pending s1 ++ w_arrivals w)
              (set_screen_timers (elapse (w_elapsed w) (timers s1)) s1))
  end.

(** The body of the inner loop for one event: if [onPreDispatch] does
    not handle it, the event handler's [onEvent] gets it. *)
Definition dispatch_event (env : Environment) (e : XEvent) (s : CXWindowsScreen)
  : option (CXWindowsScreen * list Effect) :=
  match onPreDispatch env e s with
  | None => None
  | Some (handled, s1, eff) =>
      Some (s1, eff ++ (if handled then [] else [EHandlerOnEvent e]))
  end.

(** The inner loop when nothing more happens during the dispatches. *)
Fixpoint pending_quiet (env : Environment) (events : list XEvent) (s : CXWindowsScreen)
  : option (CXWindowsScreen * list Effect) :=
  if m_stop s then Some (set_pending events s, [])
  else
    match events with
    | [] => Some (set_pending [] s, [])
    | e :: rest =>
        match dispatch_event env e s with
        | None => None
        | Some (s1, eff) =>
            match pending_quiet env rest s1 with
            | None => None
            | Some (s2, eff2) => Some (s2, eff ++ eff2)
            end
        end
    end.

(** The inner loop [while (!m_stop && XPending(m_display) > 0)]: the next
    event is taken and dispatched with [m_mutex] released; the calls made
    and the events arriving meanwhile are those of the next entry of
    [script].  [m_stop] is tested again before each event.  Once the
    script is used up the dispatches are quiet. *)
Fixpoint pending_loop (env : Environment) (script : list Dispatch)
    (events : list XEvent) (s : CXWindowsScreen)
  : option (CXWindowsScreen * list Effect) :=
  match script with
  | [] => pending_quiet env events s
  | d :: script' =>
      if m_stop s then Some (set_pending events s, [])
      else
        match events with
        | [] => Some (set_pending [] s, [])
        | e :: rest =>
            match dispatch_event env e s with
            | None => None
            | Some (s1, eff) =>
                match run_externals (d_calls d) s1 with
                | None => None
                | Some s2 =>
                    match pending_loop env script' (rest ++ d_arrivals d) s2 with
                    | None => None
                    | Some (s3, eff3) => Some (s3, eff ++ eff3)
                    end
                end
            end
        end
  end.

Inductive LoopResult :=
| LoopReturned (s : CXWindowsScreen) (trace : list Effect)
| LoopCancelled (s : CXWindowsScreen) (trace : list Effect)
| LoopBlocked (s : CXWindowsScreen) (trace : list Effect)
| LoopRunning (s : CXWindowsScreen) (trace : list Effect)
| LoopFailed.

(** [mainLoop], the [UNIX_LIKE] variant, run against a script of waits.
    [LoopReturned]: the function returned.  [LoopCancelled]: [testCancel]
    ended the thread.  [LoopBlocked]: [poll] never returns.
    [LoopRunning]: the script is used up and the loop is still going.
    [LoopFailed]: a callee has no result, or the timeout has no defined
    value. *)
Fixpoint mainLoop (env : Environment) (script : list Wait) (s : CXWindowsScreen)
    (trace : list Effect) : LoopResult :=
  if m_stop s then LoopReturned s trace
  else
    match script with
    | [] => LoopRunning s trace
    | w :: script' =>
        match poll_timeout (m_timers (timers s)) with
        | None => LoopFailed
        | Some timeout =>
            match after_wait w s with
            | None => LoopFailed
            | Some s1 =>
                match poll (x_pending s) timeout w with
                | PollBlocked => LoopBlocked s1 trace
                | PollCancelled => LoopCancelled s1 trace
                | PollEvent | PollTimeout =>
                    match processTimers (job_run env) (timers s1) with
                    | None => LoopFailed
                    | Some (_, t2, log) =>
                        match pending_loop env (w_dispatch w) (x_pending s1)
                                (set_screen_timers t2 s1) with
                        | None => LoopFailed
                        | Some (s3, eff) =>
                            mainLoop env script' s3
                              (trace ++ map (λ i, EJobRun (inv_job i)) log ++ eff)
                        end
                    end
                end
            end
        end
    end.

(** ** Construction, window, open and close *)

(** The screen saver object, a [CXWindowsScreenSaver] whose class is not
    in the sources, is known by the calls made on it. *)
Inductive ScreenSaverCall :=
| SetNotify (w : Window)
| Disable
| Enable
| Activate
| Deactivate.

(** The members [m_screensaver] (null, or the object with the calls it
    has received so far) and [m_screensaverNotify]. *)
Record ScreenSaverMembers := mkScreenSaverMembers {
  m_screensaver : option (list ScreenSaverCall);
  m_screensaverNotify : bool
}.

(** Calls into Xlib that [open] and [close] make. *)
Inductive XlibCall :=
| XSetIOErrorHandler (installed : bool)
| XOpenDisplay (name : String.string)
| XCloseDisplay (d : Display).

(** What the X server tells [open] once connected: the connection, its
    root window, the size of its default screen, the atom interned for
    "SCREENSAVER". *)
Record XServer := mkXServer {
  xs_display : Display;
  xs_root : Window;
  xs_width : Z;
  xs_height : Z;
  xs_screensaver : Atom
}.

Definition set_window (w : Window) (s : CXWindowsScreen) : CXWindowsScreen :=
  {| m_display := m_display s; m_root := m_root s; m_stop := m_stop s; m_window := w;
     m_x := m_x s; m_y := m_y s; m_w := m_w s; m_h := m_h s;
     m_clipboard := m_clipboard s; m_atomScreensaver := m_atomScreensaver s;
     timers := timers s; x_pending := x_pending s |}.

Definition set_root (w : Window) (s : CXWindowsScreen) : CXWindowsScreen :=
  {| m_display := m_display s; m_root := w; m_stop := m_stop s; m_window := m_window s;
     m_x := m_x s; m_y := m_y s; m_w := m_w s; m_h := m_h s;
     m_clipboard := m_clipboard s; m_atomScreensaver := m_atomScreensaver s;
     timers := timers s; x_pending := x_pending s |}.

Definition set_atomScreensaver (a : Atom) (s : CXWindowsScreen) : CXWindowsScreen :=
  {| m_display := m_display s; m_root := m_root s; m_stop := m_stop s;
     m_window := m_window s;
     m_x := m_x s; m_y := m_y s; m_w := m_w s; m_h := m_h s;
     m_clipboard := m_clipboard s; m_atomScreensaver := a;
     timers := timers s; x_pending := x_pending s |}.

(** The constructor: no display, no window, every clipboard null, the
    screen saver null.  [clipboards] is [kClipboardEnd]. *)
Definition CXWindowsScreen_new (clipboards : nat) : CXWindowsScreen * ScreenSaverMembers :=
  ({| m_display := None; m_root := XNone; m_stop := false; m_window := XNone;
      m_x := 0; m_y := 0; m_w := 0; m_h := 0;
      m_clipboard := replicate clipboards None;
      m_atomScreensaver := XNone;
      timers := mkTimers [] 0 0;
      x_pending := [] |},
   {| m_screensaver := None; m_screensaverNotify := false |}).

(** The loops [for (id = 0; id < kClipboardEnd; ++id) { delete
    m_clipboard[id]; m_clipboard[id] = NULL; }] of [setWindow] and
    [close]. *)
Definition destroy_clipboards (cbs : list (option CXWindowsClipboard))
  : list (option CXWindowsClipboard) :=
  map (λ _, None) cbs.

(** [setWindow]; [new_clipboard] stands for the constructor
    [CXWindowsClipboard(m_display, m_window, id)]. *)
Definition setWindow
    (new_clipboard : Display → Window → ClipboardID → CXWindowsClipboard)
    (window : Window) (s : CXWindowsScreen) : option CXWindowsScreen :=
  match m_display s with
  | None => None
  | Some d =>
      let s1 := set_window window (set_clipboards (destroy_clipboards (m_clipboard s)) s) in
      if N.eqb window XNone then Some s1
      else Some (set_clipboards
                   (imap (λ id _, Some (new_clipboard d window id)) (m_clipboard s1)) s1)
  end.

(** What [open] ends with: it returns, or throws [XScreenOpenFailure]. *)
Inductive OpenResult :=
| Opened (s : CXWindowsScreen) (ss : ScreenSaverMembers)
| ThrowsXScreenOpenFailure (s : CXWindowsScreen) (ss : ScreenSaverMembers).

(** [open]; [DISPLAY] is what [getenv] answers and [server] what
    [XOpenDisplay] answers for a display name.  The blank cursor that
    [createBlankCursor] makes on the way is kept in [m_cursor], a member
    no modelled function reads. *)
Definition open (DISPLAY : option String.string)
    (server : String.string → option XServer)
    (s : CXWindowsScreen) (ss : ScreenSaverMembers)
  : option (OpenResult * list XlibCall) :=
  match m_display s with
  | Some _ => None
  | None =>
      let display := match DISPLAY with
                     | None => ":0.0"%string
                     | Some name => name
                     end in
      match server display with
      | None =>
          Some (ThrowsXScreenOpenFailure s ss,
                [XSetIOErrorHandler true; XOpenDisplay display])
      | Some x =>
          Some (Opened
                  (set_atomScreensaver (xs_screensaver x)
                     (updateScreenShape (xs_width x) (xs_height x)
                        (set_root (xs_root x) (set_display (Some (xs_display x)) s))))
                  {| m_screensaver := Some [];
                     m_screensaverNotify := m_screensaverNotify ss |},
                [XSetIOErrorHandler true; XOpenDisplay display])
      end
  end.

(** [close]. *)
Definition close (s : CXWindowsScreen) (ss : ScreenSaverMembers)
  : CXWindowsScreen * ScreenSaverMembers * list XlibCall :=
  let ss1 := {| m_screensaver := None; m_screensaverNotify := m_screensaverNotify ss |} in
  let s1 := set_clipboards (destroy_clipboards (m_clipboard s)) s in
  match m_display s1 with
  | Some d => (set_display None s1, ss1, [XCloseDisplay d; XSetIOErrorHandler false])
  | None => (s1, ss1, [XSetIOErrorHandler false])
  end.

(** [getShape]. *)
Definition getShape (s : CXWindowsScreen) : option (Z * Z * Z * Z) :=
  match m_display s with
  | None => None
  | Some _ => Some (m_x s, m_y s, m_w s, m_h s)
  end.

(** ** The screen saver *)

Definition screensaver_call (c : ScreenSaverCall) (ss : ScreenSaverMembers)
    (calls : list ScreenSaverCall) : ScreenSaverMembers :=
  {| m_screensaver := Some (calls ++ [c]);
     m_screensaverNotify := m_screensaverNotify ss |}.

(** [openScreensaver(notify)]. *)
Definition openScreensaver (notify : bool) (m_window : Window) (ss : ScreenSaverMembers)
  : option ScreenSaverMembers :=
  match m_screensaver ss with
  | None => None
  | Some calls =>
      let ss1 := {| m_screensaver := Some calls; m_screensaverNotify := notify |} in
      if m_screensaverNotify ss1
      then Some (screensaver_call (SetNotify m_window) ss1 calls)
      else Some (screensaver_call Disable ss1 calls)
  end.

(** [closeScreensaver]. *)
Definition closeScreensaver (ss : ScreenSaverMembers) : ScreenSaverMembers :=
  match m_screensaver ss with
  | None => ss
  | Some calls =>
      if m_screensaverNotify ss
      then screensaver_call (SetNotify XNone) ss calls
      else screensaver_call Enable ss calls
  end.

(** [screensaver(activate)]. *)
Definition screensaver (activate : bool) (ss : ScreenSaverMembers)
  : option ScreenSaverMembers :=
  match m_screensaver ss with
  | None => None
  | Some calls =>
      if activate then Some (screensaver_call Activate ss calls)
      else Some (screensaver_call Deactivate ss calls)
  end.

(** ** The blank cursor *)

(** Arithmetic on [unsigned int] wraps around. *)
Definition UInt32_wrap (z : Z) : Z := (z mod 2 ^ 32)%Z.

(** [const int size = ((w + 7) >> 3) * h] of [createBlankCursor], with
    [w] and [h] the [unsigned int]s [XQueryBestCursor] answered. *)
Definition blank_cursor_size (w h : Z) : Z :=
  SInt32_wrap (UInt32_wrap (Z.shiftr (UInt32_wrap (w + 7)) 3 * h)).

(** The bitmap data [createBlankCursor] hands to
    [XCreateBitmapFromData]: [size] bytes, all zero.  [new char[size]]
    has no result for a negative size. *)
Definition blank_cursor_data (w h : Z) : option (list Z) :=
  let size := blank_cursor_size w h in
  if (size <? 0)%Z then None
  else Some (replicate (Z.to_nat size) 0%Z).

(** ** Vocabulary of the statements *)

(** Every period is positive, as the constructor of [CTimer] asserts. *)
Definition positive_periods (q : list CTimer) : Prop :=
  Forall (λ t, (0 < m_timeout t)%Q) q.

(** What firing does to one entry: a due entry starts its period anew. *)
Definition rearm_entry (t : CTimer) : CTimer :=
  if decide (due t) then CTimer_reset t else t.

(** The jobs with an entry in the queue. *)
Definition registered (job : IJob) (q : list CTimer) : Prop :=
  job ∈ map getJob q.

(** The entries of one job, and the entries of all the others. *)
Definition entries_of (job : IJob) (q : list CTimer) : list CTimer :=
  filter (λ e, getJob e = job) q.

Definition entries_but (job : IJob) (q : list CTimer) : list CTimer :=
  filter (λ e, getJob e ≠ job) q.

(** The calls never register [job]. *)
Definition never_adds (job : IJob) (cs : list TimerCall) : Prop :=
  ∀ timeout, CallAddTimer job timeout ∉ cs.

(** What goes on around the timers between and at ticks: time passes, some
    thread calls the timer interface, the loop calls [processTimers]. *)
Inductive Step :=
| StepElapse (dt : Q)
| StepCall (c : TimerCall)
| StepTick.

Fixpoint run_steps (bodies : IJob → list TimerCall) (steps : list Step) (s : Timers)
  : option (Timers * list Invocation) :=
  match steps with
  | [] => Some (s, [])
  | StepElapse dt :: rest => run_steps bodies rest (elapse dt s)
  | StepCall c :: rest =>
      match run_call c s with
      | None => None
      | Some s1 => run_steps bodies rest s1
      end
  | StepTick :: rest =>
      match processTimers bodies s with
      | None => None
      | Some (_, s1, log) =>
          match run_steps bodies rest s1 with
          | None => None
          | Some (s2, log2) => Some (s2, log ++ log2)
          end
      end
  end.

(** The lock is free and no entry is due. *)
Definition settled (s : Timers) : Prop :=
  m_timersMutex s = 0 ∧ Forall (λ t, ¬ due t) (m_timers s).

(** A job that removes itself when it runs. *)
Definition self_removing : IJob → list TimerCall :=
  λ j, if N.eqb j 1 then [CallRemoveTimer 1%N] else [].

Definition three_timers : Timers :=
  mkTimers [mkCTimer 1%N 5 5; mkCTimer 2%N 3 3; mkCTimer 3%N 10 4] 5 0.

(** The channel once [destroyRequest] has run on it. *)
Definition purged (w : Window) (c : CXWindowsClipboard) : CXWindowsClipboard :=
  snd (destroyRequest w c).

(** No bound clipboard below [id] holds a request of window [w]. *)
Definition none_before (w : Window) (cbs : list (option CXWindowsClipboard))
    (id : ClipboardID) : Prop :=
  ∀ j c, j < id → cbs !! j = Some (Some c) → has_request w c = false.

(** Some bound clipboard below [id] holds a request of window [w]. *)
Definition some_before (w : Window) (cbs : list (option CXWindowsClipboard))
    (id : ClipboardID) : Prop :=
  ∃ j c, j < id ∧ cbs !! j = Some (Some c) ∧ has_request w c = true.

(** Collaborators that do as little as can be: the X server grants every
    [open], the pointer is on another screen, the event handler handles
    nothing, jobs do nothing. *)
Definition quiet_env : Environment :=
  {| clipboard_lost := λ _ c, c;
     clipboard_addRequest := λ _ _ _ _ _ c, c;
     clipboard_processRequest := λ _ _ _ c, (false, c);
     server_time := λ _, 1000%positive;
     open_granted := λ _ _, true;
     XQueryPointer := λ _, None;
     eventHandler_onPreDispatch := λ _, false;
     job_run := λ _, [] |}.

(** The same, with an X server that refuses every [open]. *)
Definition refusing_env : Environment :=
  {| clipboard_lost := λ _ c, c;
     clipboard_addRequest := λ _ _ _ _ _ c, c;
     clipboard_processRequest := λ _ _ _ c, (false, c);
     server_time := λ _, 1000%positive;
     open_granted := λ _ _, false;
     XQueryPointer := λ _, None;
     eventHandler_onPreDispatch := λ _, false;
     job_run := λ _, [] |}.

(** A request of window 7 for the selection's data. *)
Definition request_of_7 : TransferRequest := mkTransferRequest 50%N 7%N 31%N 900%N 40%N.

(** A screen bound to window 50, with two clipboards that own their
    selections and hold the content "hi" and a pending request of window
    7 each; no timers, no pending events. *)
Definition bound_screen : CXWindowsScreen :=
  {| m_display := Some 1%N; m_root := 2%N; m_stop := false; m_window := 50%N;
     m_x := 0; m_y := 0; m_w := 1025; m_h := 769;
     m_clipboard :=
       [Some (mkClipboard 50%N 1%N [(0, [104; 105]%Z)] [request_of_7] None [] true);
        Some (mkClipboard 50%N 2%N [(0, [104; 105]%Z)] [request_of_7] None [] true)];
     m_atomScreensaver := 77%N;
     timers := mkTimers [] 0 0;
     x_pending := [] |}.

(** The same screen before a window is set: both clipboards are null. *)
Definition unbound_screen : CXWindowsScreen :=
  set_clipboards [None; None] bound_screen.

(** A wait during which another thread calls [exitMainLoop] and nothing
    else happens. *)
Definition exit_during_wait : Wait :=
  {| w_calls := [ExtExitMainLoop]; w_arrivals := []; w_cancel := false; w_elapsed := 60;
     w_dispatch := [] |}.

(** A wait during which another thread calls [exitMainLoop] and an event
    arrives. *)
Definition exit_and_event : Wait :=
  {| w_calls := [ExtExitMainLoop]; w_arrivals := [OtherEvent 6]; w_cancel := false;
     w_elapsed := 1; w_dispatch := [] |}.

(** The screen when those waits are over. *)
Definition after_exit_during_wait : CXWindowsScreen :=
  set_screen_timers (mkTimers [] (0 + 60) 0) (exitMainLoop bound_screen).

Definition after_exit_and_event : CXWindowsScreen :=
  set_pending [OtherEvent 6]
    (set_screen_timers (mkTimers [] (0 + 1) 0) (exitMainLoop bound_screen)).

(** ** Sample states *)

Definition two_timers : Timers :=
  mkTimers [mkCTimer 1%N 5 5; mkCTimer 2%N 3 3] 4 0.

Definition one_timer : Timers :=
  mkTimers [mkCTimer 1%N 5 5] 2 0.

(** ** More vocabulary and sample states *)

(** What holds of the timers between any two calls: one entry per job at
    most, no null job, positive periods, nothing due, the lock free. *)
Definition timers_invariant (s : Timers) : Prop :=
  NoDup (map getJob (m_timers s))
  ∧ (NULL ∉ map getJob (m_timers s))
  ∧ positive_periods (m_timers s)
  ∧ Forall (λ t, ¬ due t) (m_timers s)
  ∧ m_timersMutex s = 0.

(** Whether a slot of [m_clipboard] holds a clipboard. *)
Definition is_bound (o : option CXWindowsClipboard) : bool :=
  match o with Some _ => true | None => false end.


(** An entry whose period is not positive, due after six seconds. *)
Definition bad_period : Timers :=
  mkTimers [mkCTimer 1%N (-1) 5; mkCTimer 2%N 3 30] 6 0.

(** A server with a screen of 1280 by 1024. *)
Definition sample_server : XServer := mkXServer 9%N 2%N 1280 1024 77%N.

(** A clipboard newly made for a window. *)
Definition fresh_clipboard (d : Display) (w : Window) (id : ClipboardID)
  : CXWindowsClipboard :=
  mkClipboard w (N.of_nat (S id)) [] [] None [] false.

(** Two jobs are registered, the first one twice; then ten seconds and a
    tick, one second and a tick. *)
Definition sample_steps : list Step :=
  [StepCall (CallAddTimer 1%N 5); StepCall (CallAddTimer 2%N 3);
   StepCall (CallAddTimer 1%N 4); StepElapse 10; StepTick; StepElapse 1; StepTick].

(** The members other than [m_clipboard] are the same in both screens,
    and the same slots of [m_clipboard] are bound. *)
Definition same_but_clipboard_contents (s s' : CXWindowsScreen) : Prop :=
  m_display s' = m_display s ∧ m_root s' = m_root s ∧ m_stop s' = m_stop s
  ∧ m_window s' = m_window s
  ∧ (m_x s', m_y s', m_w s', m_h s') = (m_x s, m_y s, m_w s, m_h s)
  ∧ m_atomScreensaver s' = m_atomScreensaver s
  ∧ timers s' = timers s ∧ x_pending s' = x_pending s
  ∧ map is_bound (m_clipboard s') = map is_bound (m_clipboard s).


(** A wait of an hour during which another thread registers a timer of
    two seconds, and nothing else happens. *)
Definition timer_added_during_wait : Wait :=
  {| w_calls := [ExtTimer (CallAddTimer 4%N 2)]; w_arrivals := []; w_cancel := false;
     w_elapsed := 3600; w_dispatch := [] |}.


(** ** Vocabulary of the main loop *)

(** A call that passes the assertions of the constructor of [CTimer]:
    [addTimer] with a job that is not null and a timeout above zero. *)
Definition valid_call (c : TimerCall) : Prop :=
  match c with
  | CallAddTimer job timeout => job ≠ NULL ∧ (0 < timeout)%Q
  | CallRemoveTimer _ => True
  end.

(** Every job makes such calls only (and its [run()] returns, as every
    list of calls does). *)
Definition valid_bodies (bodies : IJob → list TimerCall) : Prop :=
  ∀ j, Forall valid_call (bodies j).


(** The remaining time of the top entry, in milliseconds, is below
    [2^31]: its whole part is an [int]. *)
Definition timeout_fits (q : list CTimer) : Prop :=
  ∀ t, pq_top q = Some t → (1000 * m_time t < 2147483648)%Q.




(** The bound screen with one timer of five seconds registered. *)
Definition timed_screen : CXWindowsScreen :=
  set_screen_timers (mkTimers [mkCTimer 1%N 5 5] 0 0) bound_screen.

(** The bound screen with one timer of three million seconds. *)
Definition far_timer_screen : CXWindowsScreen :=
  set_screen_timers (mkTimers [mkCTimer 1%N 3000000 3000000] 0 0) bound_screen.

(** A wait of five seconds during which another thread calls
    [exitMainLoop]. *)
Definition exit_during_timed_wait : Wait :=
  {| w_calls := [ExtExitMainLoop]; w_arrivals := []; w_cancel := false; w_elapsed := 5;
     w_dispatch := [] |}.

(** The screen when that wait is over. *)
Definition after_exit_during_timed_wait : CXWindowsScreen :=
  set_screen_timers (mkTimers [mkCTimer 1%N 5 5] (0 + 5) 0) (exitMainLoop timed_screen).




(** * Properties *)

(** ** The priority queue *)

Lemma pq_top_None q : pq_top q = None → q = [].
Proof.
  destruct q as [|t q]; [done|]. simpl.
  destruct (pq_top q); [destruct (Qle_bool _ _)|]; discriminate.
Qed.

Lemma pq_top_elem q t : pq_top q = Some t → t ∈ q.
Proof.
  revert t. induction q as [|a q IH]; intros t; simpl; [discriminate|].
  destruct (pq_top q) as [u|] eqn:Eu.
  - destruct (Qle_bool (m_time a) (m_time u)); intros [= <-].
    + apply list_elem_of_here.
    + apply list_elem_of_further. now apply IH.
  - intros [= <-]. apply list_elem_of_here.
Qed.

Lemma pq_top_least q t u :
  pq_top q = Some t → u ∈ q → (m_time t <= m_time u)%Q.
Proof.
  revert t u. induction q as [|a q IH]; intros t u; simpl; [discriminate|].
  destruct (pq_top q) as [v|] eqn:Ev.
  - destruct (Qle_bool (m_time a) (m_time v)) eqn:E; intros [= <-] Hu;
      apply elem_of_cons in Hu as [->|Hu].
    + lra.
    + apply Qle_bool_iff in E. specialize (IH v u eq_refl Hu). lra.
    + assert (¬ (m_time a <= m_time v)%Q) by (rewrite <- Qle_bool_iff; congruence).
      lra.
    + now apply IH.
  - intros [= <-] Hu. apply pq_top_None in Ev. subst q.
    apply list_elem_of_singleton in Hu. subst u. lra.
Qed.

Lemma pq_pop_perm q t : pq_top q = Some t → q ≡ₚ t :: pq_pop q.
Proof.
  revert t. induction q as [|a q IH]; intros t; simpl; [discriminate|].
  destruct (pq_top q) as [u|] eqn:Eu.
  - destruct (Qle_bool (m_time a) (m_time u)); intros [= <-]; [done|].
    rewrite (IH u eq_refl) at 1. apply perm_swap.
  - intros [= <-]. now rewrite (pq_top_None _ Eu).
Qed.

Lemma pq_top_Some q : q ≠ [] → ∃ t, pq_top q = Some t.
Proof.
  destruct (pq_top q) eqn:E; [eauto|]. intros H. now apply pq_top_None in E.
Qed.

(** ** The rearming loop *)

Lemma due_iff t : Qle_bool (m_time t) 0 = true ↔ due t.
Proof. apply Qle_bool_iff. Qed.

Lemma reset_not_due t : (0 < m_timeout t)%Q → ¬ due (CTimer_reset t).
Proof. unfold due. simpl. lra. Qed.

Lemma rearm_entry_reset t : rearm_entry (CTimer_reset t) = CTimer_reset t.
Proof. unfold rearm_entry. destruct (decide _); reflexivity. Qed.

Lemma rearm_entry_id q : Forall (λ t, ¬ due t) q → map rearm_entry q = q.
Proof.
  induction 1 as [|t q Ht _ IH]; simpl; [done|].
  rewrite IH. unfold rearm_entry. now destruct (decide (due t)).
Qed.

Lemma rearm_entry_not_due t : (0 < m_timeout t)%Q → ¬ due (rearm_entry t).
Proof.
  intros H. unfold rearm_entry. destruct (decide (due t)); [|done].
  now apply reset_not_due.
Qed.

Lemma positive_periods_perm q q' :
  q ≡ₚ q' → positive_periods q → positive_periods q'.
Proof. unfold positive_periods. intros Hp H. now rewrite <- Hp. Qed.

Lemma top_not_due_all q t :
  pq_top q = Some t → ¬ due t → Forall (λ u, ¬ due u) q.
Proof.
  intros Ht Hd. apply Forall_forall. intros u Hu%(pq_top_least _ _ _ Ht).
  unfold due in *. lra.
Qed.

Lemma filter_due_none q : Forall (λ t, ¬ due t) q → filter due q = [].
Proof.
  induction 1 as [|t q Ht _ IH]; [done|].
  now rewrite filter_cons_False.
Qed.

Lemma rearm_step_perm q t :
  pq_top q = Some t → due t →
  map rearm_entry (pq_push (CTimer_reset t) (pq_pop q)) ≡ₚ map rearm_entry q.
Proof.
  intros Ht Hd. unfold pq_push. rewrite map_app. simpl.
  rewrite rearm_entry_reset.
  rewrite (Permutation_map rearm_entry (pq_pop_perm _ _ Ht)). simpl.
  assert (E : rearm_entry t = CTimer_reset t).
  { unfold rearm_entry. now destruct (decide (due t)). }
  rewrite E. now rewrite <- Permutation_cons_append.
Qed.

Lemma rearm_step_due q t :
  pq_top q = Some t → due t → (0 < m_timeout t)%Q →
  t :: filter due (pq_push (CTimer_reset t) (pq_pop q)) ≡ₚ filter due q.
Proof.
  intros Ht Hd Hpos. unfold pq_push. rewrite filter_app.
  rewrite (filter_due_none [CTimer_reset t]);
    [|constructor; [now apply reset_not_due|constructor]].
  rewrite app_nil_r.
  rewrite (filter_Permutation due _ _ (pq_pop_perm _ _ Ht)).
  now rewrite filter_cons_True.
Qed.

Lemma rearm_spec fuel : ∀ q acc q2 jobs,
  positive_periods q →
  rearm fuel q acc = Some (q2, jobs) →
  q2 ≡ₚ map rearm_entry q
  ∧ jobs ≡ₚ acc ++ map getJob (filter due q)
  ∧ Forall (λ t, ¬ due t) q2.
Proof.
  induction fuel as [|fuel IH]; intros q acc q2 jobs Hpos; simpl; [discriminate|].
  destruct (pq_top q) as [t|] eqn:Ht; [|discriminate].
  destruct (Qle_bool (m_time t) 0) eqn:Ed.
  - apply due_iff in Ed. intros Hr.
    assert (Ht_pos : (0 < m_timeout t)%Q).
    { unfold positive_periods in Hpos. rewrite Forall_forall in Hpos.
      apply Hpos. now apply pq_top_elem. }
    apply IH in Hr as (Hq & Hj & Hnd).
    + split; [|split]; [| |done].
      * rewrite Hq. now apply rearm_step_perm.
      * rewrite Hj, <- (rearm_step_due q t Ht Ed Ht_pos). simpl.
        rewrite <- app_assoc. reflexivity.
    + unfold pq_push. apply (positive_periods_perm (CTimer_reset t :: pq_pop q)).
      * apply Permutation_cons_append.
      * pose proof (positive_periods_perm _ _ (pq_pop_perm _ _ Ht) Hpos) as H.
        unfold positive_periods in *. inversion H; subst. constructor; done.
  - intros [= <- <-].
    assert (Hnd : Forall (λ u, ¬ due u) q).
    { apply (top_not_due_all q t Ht). rewrite <- due_iff. congruence. }
    split; [|split]; [| |done].
    + now rewrite rearm_entry_id.
    + rewrite (filter_due_none q Hnd). now rewrite app_nil_r.
Qed.

Lemma rearm_terminates fuel : ∀ q acc,
  positive_periods q → q ≠ [] →
  length (filter due q) < fuel →
  ∃ r, rearm fuel q acc = Some r.
Proof.
  induction fuel as [|fuel IH]; intros q acc Hpos Hne Hlen; [lia|]. simpl.
  destruct (pq_top_Some q Hne) as [t Ht]. rewrite Ht.
  destruct (Qle_bool (m_time t) 0) eqn:Ed; [|eauto].
  apply due_iff in Ed.
  assert (Ht_pos : (0 < m_timeout t)%Q).
  { unfold positive_periods in Hpos. rewrite Forall_forall in Hpos.
    apply Hpos. now apply pq_top_elem. }
  apply IH.
  - unfold pq_push. apply (positive_periods_perm (CTimer_reset t :: pq_pop q)).
    + apply Permutation_cons_append.
    + pose proof (positive_periods_perm _ _ (pq_pop_perm _ _ Ht) Hpos) as H.
      unfold positive_periods in *. inversion H; subst. constructor; done.
  - unfold pq_push. now destruct (pq_pop q).
  - pose proof (Permutation_length (rearm_step_due q t Ht Ed Ht_pos)) as Hl.
    simpl in Hl. lia.
Qed.

(** ** The locked block of [processTimers] *)

Lemma CLock_release_acquire s : CLock_release (CLock_acquire s) = s.
Proof. now destruct s. Qed.

Lemma positive_periods_sub time q :
  positive_periods q → positive_periods (map (CTimer_sub time) q).
Proof.
  unfold positive_periods. intros H. apply Forall_map.
  eapply Forall_impl; [exact H|]. now intros t.
Qed.

Lemma top_later_iff q t time :
  pq_top q = Some t →
  Qle_bool (m_time t) time = false ↔ Forall (λ u, (time < m_time u)%Q) q.
Proof.
  intros Ht. split.
  - intros E. apply Forall_forall. intros u Hu%(pq_top_least _ _ _ Ht).
    assert (¬ (m_time t <= time)%Q) by (rewrite <- Qle_bool_iff; congruence). lra.
  - intros H. rewrite Forall_forall in H. specialize (H t (pq_top_elem _ _ Ht)).
    destruct (Qle_bool (m_time t) time) eqn:E; [|done].
    apply Qle_bool_iff in E. lra.
Qed.

Lemma processTimers_locked_idle s :
  Forall (λ t, (m_stopwatch s < m_time t)%Q) (m_timers s) →
  processTimers_locked s = Some (s, None).
Proof.
  intros H. unfold processTimers_locked. simpl.
  destruct (pq_top (m_timers s)) as [t|] eqn:Ht.
  - rewrite (proj2 (top_later_iff _ _ _ Ht) H). now rewrite CLock_release_acquire.
  - now rewrite CLock_release_acquire.
Qed.

Lemma processTimers_locked_fires s :
  positive_periods (m_timers s) →
  Exists (λ t, (m_time t <= m_stopwatch s)%Q) (m_timers s) →
  ∃ q' jobs,
    processTimers_locked s
    = Some (mkTimers q' 0%Q (m_timersMutex s), Some jobs)
    ∧ q' ≡ₚ map rearm_entry (map (CTimer_sub (m_stopwatch s)) (m_timers s))
    ∧ jobs ≡ₚ map getJob (filter due (map (CTimer_sub (m_stopwatch s)) (m_timers s)))
    ∧ Forall (λ t, ¬ due t) q'.
Proof.
  intros Hpos Hex. unfold processTimers_locked. cbn -[rearm].
  destruct (pq_top (m_timers s)) as [t|] eqn:Ht.
  - destruct (Qle_bool (m_time t) (m_stopwatch s)) eqn:E.
    + set (q1 := map (CTimer_sub (m_stopwatch s)) (m_timers s)).
      assert (Hpos1 : positive_periods q1) by now apply positive_periods_sub.
      destruct (rearm_terminates (S (length q1)) q1 [] Hpos1) as [[q2 jobs] Hr].
      * subst q1. apply pq_top_elem in Ht. destruct (m_timers s); [|done].
        now apply elem_of_nil in Ht.
      * pose proof (length_filter due q1). lia.
      * rewrite Hr. exists q2, jobs. split; [reflexivity|].
        now apply (rearm_spec _ _ _ _ _ Hpos1) in Hr.
    + apply (top_later_iff _ _ _ Ht) in E. rewrite Forall_forall in E.
      apply Exists_exists in Hex as (u & Hu & Hle). specialize (E u Hu). lra.
  - apply pq_top_None in Ht. rewrite Ht in Hex. inversion Hex.
Qed.

(** The fuel of [processTimers_locked] is enough: the loop that comes to
    an end at all does so within one more round than there are entries. *)
Lemma rearm_stuck fuel : ∀ q acc,
  (∃ t, t ∈ q ∧ due t ∧ (m_timeout t <= 0)%Q) →
  rearm fuel q acc = None.
Proof.
  induction fuel as [|fuel IH]; intros q acc (t & Hin & Hd & Hto); [done|]. simpl.
  destruct (pq_top q) as [u|] eqn:Hu; [|done].
  assert (Hdu : due u).
  { pose proof (pq_top_least _ _ _ Hu Hin). unfold due in *. lra. }
  rewrite (proj2 (due_iff u) Hdu). apply IH.
  rewrite (pq_pop_perm _ _ Hu) in Hin. apply elem_of_cons in Hin as [->|Hin].
  - exists (CTimer_reset u). unfold pq_push, due. simpl.
    split; [|done]. apply elem_of_app. right. apply list_elem_of_here.
  - exists t. split; [|done]. unfold pq_push. apply elem_of_app. now left.
Qed.

Lemma rearm_more_fuel fuel : ∀ fuel' q acc r,
  rearm fuel q acc = Some r →
  length (filter due q) < fuel' →
  rearm fuel' q acc = Some r.
Proof.
  induction fuel as [|fuel IH]; intros fuel' q acc r; simpl; [discriminate|].
  destruct fuel' as [|fuel']; [lia|]. simpl.
  destruct (pq_top q) as [t|] eqn:Ht; [|discriminate].
  destruct (Qle_bool (m_time t) 0) eqn:Ed; [|done].
  apply due_iff in Ed. intros Hr Hlen.
  destruct (Qlt_le_dec 0 (m_timeout t)) as [Hpos|Hneg].
  - apply (IH _ _ _ _ Hr).
    pose proof (Permutation_length (rearm_step_due q t Ht Ed Hpos)) as Hl.
    simpl in Hl. lia.
  - rewrite rearm_stuck in Hr; [discriminate|].
    exists (CTimer_reset t). unfold pq_push, due. simpl.
    split; [|done]. apply elem_of_app. right. apply list_elem_of_here.
Qed.

Lemma rearm_fuel_adequate fuel q acc r :
  rearm fuel q acc = Some r → rearm (S (length q)) q acc = Some r.
Proof.
  intros Hr. apply (rearm_more_fuel fuel _ _ _ _ Hr).
  pose proof (length_filter due q). lia.
Qed.

Lemma filter_due_sub time q :
  filter due (map (CTimer_sub time) q)
  = map (CTimer_sub time) (filter (λ t, due (CTimer_sub time t)) q).
Proof.
  induction q as [|t q IH]; [done|]. simpl.
  destruct (decide (due (CTimer_sub time t))) as [Hd|Hd].
  - rewrite !filter_cons_True by done. simpl. now rewrite IH.
  - now rewrite !filter_cons_False by done.
Qed.

(** C1, amended.  A call of [processTimers] with elapsed time [time] (the
    reading of the stopwatch) decrements the entries only when one of
    them is due.  If every entry has more than [time] left (or there is
    none), nothing changes: no entry is decremented, no job is collected,
    the stopwatch is not reset, and the call returns false.  If an entry
    has [time] or less left, every entry is decremented by [time], which
    keeps the order of any two entries; exactly the jobs of the entries
    whose decremented remaining time is at or below zero are collected,
    each such entry is reset to its period before it is put back in the
    queue, the stopwatch is reset, and the collected jobs are then run. *)
Theorem processTimers_tick (bodies : IJob → list TimerCall) (s : Timers) :
  positive_periods (m_timers s) →
  (Forall (λ t, (m_stopwatch s < m_time t)%Q) (m_timers s) →
     processTimers_locked s = Some (s, None)
     ∧ processTimers bodies s = Some (Some false, s, []))
  ∧ (Exists (λ t, (m_time t <= m_stopwatch s)%Q) (m_timers s) →
     ∃ q' jobs,
       processTimers_locked s = Some (mkTimers q' 0%Q (m_timersMutex s), Some jobs)
       ∧ q' ≡ₚ map (λ t, rearm_entry (CTimer_sub (m_stopwatch s) t)) (m_timers s)
       ∧ jobs ≡ₚ map getJob
                   (filter (λ t, due (CTimer_sub (m_stopwatch s) t)) (m_timers s))
       ∧ (∀ a b, CTimer_lt a b →
            CTimer_lt (CTimer_sub (m_stopwatch s) a) (CTimer_sub (m_stopwatch s) b))
       ∧ processTimers bodies s
         = match run_jobs bodies jobs (mkTimers q' 0%Q (m_timersMutex s)) with
           | None => None
           | Some (s2, log) => Some (None, s2, log)
           end).
Proof.
  intros Hpos. split.
  - intros Hidle. apply processTimers_locked_idle in Hidle.
    split; [done|]. unfold processTimers. now rewrite Hidle.
  - intros Hex.
    destruct (processTimers_locked_fires s Hpos Hex) as (q' & jobs & E & Hq & Hj & _).
    exists q', jobs. split; [done|]. split; [|split; [|split]].
    + now rewrite Hq, map_map.
    + rewrite Hj, filter_due_sub, map_map. reflexivity.
    + unfold CTimer_lt. simpl. intros a b. lra.
    + unfold processTimers. now rewrite E.
Qed.

Lemma processTimers_tick_witness :
  ∃ q' jobs,
    processTimers_locked two_timers = Some (mkTimers q' 0%Q 0, Some jobs)
    ∧ q' ≡ₚ map (λ t, rearm_entry (CTimer_sub 4 t)) (m_timers two_timers)
    ∧ jobs ≡ₚ [2%N].
Proof.
  assert (Hpos : positive_periods (m_timers two_timers)).
  { repeat constructor. }
  assert (Hex : Exists (λ t, (m_time t <= m_stopwatch two_timers)%Q)
                  (m_timers two_timers)).
  { right. left. simpl. discriminate. }
  destruct (proj2 (processTimers_tick (λ _, []) two_timers Hpos) Hex)
    as (q' & jobs & E & Hq & Hj & _).
  exists q', jobs. split; [exact E|]. split; [exact Hq|]. exact Hj.
Defined.

Lemma processTimers_skips_decrement :
  ¬ ∃ r s' log,
      processTimers (λ _, []) one_timer = Some (r, s', log)
      ∧ ∀ t, t ∈ m_timers one_timer →
             rearm_entry (CTimer_sub (m_stopwatch one_timer) t) ∈ m_timers s'.
Proof.
  intros (r & s' & log & E & H).
  assert (E' : processTimers (λ _, []) one_timer = Some (Some false, one_timer, []))
    by reflexivity.
  rewrite E' in E. injection E as <- <- <-.
  specialize (H (mkCTimer 1%N 5 5) (list_elem_of_here _ _)).
  apply list_elem_of_singleton in H. discriminate H.
Qed.

(** ** [addTimer] and [removeTimer] *)

Lemma entries_of_but job q : entries_of job (entries_but job q) = [].
Proof.
  unfold entries_of, entries_but. induction q as [|e q IH]; [done|].
  destruct (decide (getJob e = job)) as [E|E].
  - rewrite (filter_cons_False (λ e, getJob e ≠ job)) by tauto. exact IH.
  - rewrite (filter_cons_True (λ e, getJob e ≠ job)) by done.
    now rewrite filter_cons_False.
Qed.

Lemma entries_but_but job q : entries_but job (entries_but job q) = entries_but job q.
Proof.
  unfold entries_but. induction q as [|e q IH]; [done|].
  destruct (decide (getJob e = job)) as [E|E].
  - rewrite (filter_cons_False (λ e, getJob e ≠ job) e) by tauto. exact IH.
  - rewrite (filter_cons_True (λ e, getJob e ≠ job) e) by done.
    rewrite filter_cons_True by done. now rewrite IH.
Qed.

Lemma entries_but_absent job q : ¬ registered job q → entries_but job q = q.
Proof.
  unfold registered, entries_but. induction q as [|e q IH]; [done|].
  simpl. intros H. rewrite filter_cons_True.
  - rewrite IH; [done|]. intros Hin. apply H. now apply list_elem_of_further.
  - intros E. apply H. rewrite <- E. apply list_elem_of_here.
Qed.

Lemma CTimer_new_Some job timeout :
  job ≠ NULL → (0 < timeout)%Q →
  CTimer_new job timeout = Some (mkCTimer job timeout timeout).
Proof.
  intros Hj Ht. unfold CTimer_new.
  destruct (N.eqb_spec job NULL); [done|].
  destruct (Qle_bool timeout 0) eqn:E; [|done].
  apply Qle_bool_iff in E. lra.
Qed.

Lemma addTimer_Some job timeout s :
  job ≠ NULL → (0 < timeout)%Q →
  addTimer job timeout s
  = Some (set_timers (entries_but job (m_timers s) ++ [mkCTimer job timeout timeout]) s).
Proof.
  intros Hj Ht. unfold addTimer. rewrite (CTimer_new_Some _ _ Hj Ht).
  now destruct s.
Qed.

Lemma removeTimer_timers job s :
  removeTimer job s = set_timers (entries_but job (m_timers s)) s.
Proof. now destruct s. Qed.

Lemma run_calls_app cs1 cs2 s :
  run_calls (cs1 ++ cs2) s
  = match run_calls cs1 s with
    | None => None
    | Some s1 => run_calls cs2 s1
    end.
Proof.
  revert s. induction cs1 as [|c cs1 IH]; intros s; simpl; [done|].
  destruct (run_call c s); [apply IH|done].
Qed.

Lemma addTimer_sequence job ts : ∀ s,
  job ≠ NULL → Forall (λ t, (0 < t)%Q) ts →
  ∃ s', run_calls (map (CallAddTimer job) ts) s = Some s'
        ∧ entries_but job (m_timers s') = entries_but job (m_timers s)
        ∧ m_stopwatch s' = m_stopwatch s
        ∧ m_timersMutex s' = m_timersMutex s.
Proof.
  intros s Hj Hts. revert s.
  induction Hts as [|t ts Ht _ IH]; intros s; simpl; [by eexists|].
  rewrite (addTimer_Some _ _ _ Hj Ht).
  destruct (IH (set_timers (entries_but job (m_timers s) ++ [mkCTimer job t t]) s))
    as (s' & E & Hb & Hw & Hm).
  exists s'. split; [done|]. split; [|done].
  rewrite Hb. simpl. unfold entries_but at 1. rewrite filter_app.
  fold (entries_but job (entries_but job (m_timers s))). rewrite entries_but_but.
  rewrite filter_cons_False; [now rewrite app_nil_r|]. simpl. tauto.
Qed.

(** C2.  After any sequence of [addTimer(job, t)] calls with the same
    job, on any timers, the queue holds exactly one entry for the job,
    with the most recent [t] as period and as remaining time, and the
    entries of the other jobs are as before: each [addTimer] replaces the
    job's previous entry.  [removeTimer(job)] then leaves no entry for the
    job and keeps the others, and [removeTimer] of a job that has no entry
    changes nothing. *)
Theorem addTimer_most_recent_only (job : IJob) (ts : list Q) (t : Q) (s : Timers) :
  job ≠ NULL →
  Forall (λ t, (0 < t)%Q) (ts ++ [t]) →
  (∃ s', run_calls (map (CallAddTimer job) (ts ++ [t])) s = Some s'
         ∧ entries_of job (m_timers s') = [mkCTimer job t t]
         ∧ entries_but job (m_timers s') = entries_but job (m_timers s)
         ∧ entries_of job (m_timers (removeTimer job s')) = []
         ∧ entries_but job (m_timers (removeTimer job s'))
           = entries_but job (m_timers s'))
  ∧ (¬ registered job (m_timers s) → removeTimer job s = s).
Proof.
  intros Hj Hts. apply Forall_app in Hts as [Hts Ht].
  apply Forall_cons in Ht as [Ht _]. split.
  - destruct (addTimer_sequence job ts s Hj Hts) as (s1 & E1 & Hb & _).
    rewrite map_app, run_calls_app, E1. cbn [map run_calls run_call].
    rewrite (addTimer_Some _ _ _ Hj Ht). eexists. split; [reflexivity|].
    rewrite removeTimer_timers. cbn [m_timers set_timers].
    assert (Hof : entries_of job (entries_but job (m_timers s1) ++ [mkCTimer job t t])
                  = [mkCTimer job t t]).
    { unfold entries_of at 1. rewrite filter_app.
      fold (entries_of job (entries_but job (m_timers s1))).
      rewrite entries_of_but. now rewrite filter_cons_True. }
    assert (Hbut : entries_but job (entries_but job (m_timers s1) ++ [mkCTimer job t t])
                   = entries_but job (m_timers s)).
    { unfold entries_but at 1. rewrite filter_app.
      fold (entries_but job (entries_but job (m_timers s1))).
      rewrite entries_but_but, Hb.
      rewrite filter_cons_False; [now rewrite app_nil_r|]. simpl. tauto. }
    split; [exact Hof|]. split; [exact Hbut|]. split.
    + apply entries_of_but.
    + apply entries_but_but.
  - intros Habs. rewrite removeTimer_timers, (entries_but_absent _ _ Habs).
    now destruct s.
Qed.

Lemma addTimer_most_recent_only_witness :
  (∃ s', run_calls (map (CallAddTimer 1%N) ([7; 2] ++ [9])%Q) two_timers = Some s'
         ∧ entries_of 1%N (m_timers s') = [mkCTimer 1%N 9 9]
         ∧ entries_but 1%N (m_timers s') = entries_but 1%N (m_timers two_timers)
         ∧ entries_of 1%N (m_timers (removeTimer 1%N s')) = []
         ∧ entries_but 1%N (m_timers (removeTimer 1%N s'))
           = entries_but 1%N (m_timers s'))
  ∧ (¬ registered 1%N (m_timers two_timers) → removeTimer 1%N two_timers = two_timers).
Proof.
  apply (addTimer_most_recent_only 1%N [7; 2]%Q 9%Q two_timers).
  - discriminate.
  - repeat constructor.
Defined.

(** ** Jobs that run at a tick *)

Lemma run_call_settled c s s' : settled s → run_call c s = Some s' → settled s'.
Proof.
  intros [Hm Hd]. destruct c as [job timeout|job]; simpl.
  - unfold addTimer, CTimer_new.
    destruct (N.eqb job NULL); [discriminate|].
    destruct (Qle_bool timeout 0) eqn:E; [discriminate|].
    intros [= <-]. split; simpl; [done|]. unfold pq_push, pq_swap.
    apply Forall_app. split.
    + apply Forall_forall. intros t Ht%list_elem_of_filter.
      rewrite Forall_forall in Hd. apply Hd, Ht.
    + constructor; [|constructor]. unfold due. simpl.
      rewrite <- Qle_bool_iff. congruence.
  - intros [= <-]. split; simpl; [done|]. unfold pq_swap.
    apply Forall_forall. intros t Ht%list_elem_of_filter.
    rewrite Forall_forall in Hd. apply Hd, Ht.
Qed.

Lemma run_calls_settled cs : ∀ s s',
  settled s → run_calls cs s = Some s' → settled s'.
Proof.
  induction cs as [|c cs IH]; intros s s' Hs; simpl; [now intros [= <-]|].
  destruct (run_call c s) as [s1|] eqn:E; [|discriminate].
  apply IH. now apply (run_call_settled c s).
Qed.

Lemma run_jobs_settled bodies jobs : ∀ s s' log,
  settled s → run_jobs bodies jobs s = Some (s', log) →
  Forall (λ i, settled (inv_state i)) log ∧ settled s'.
Proof.
  induction jobs as [|j jobs IH]; intros s s' log Hs; simpl.
  - now intros [= <- <-].
  - destruct (run_calls (bodies j) s) as [s1|] eqn:E; [|discriminate].
    destruct (run_jobs bodies jobs s1) as [[s2 log2]|] eqn:E2; [|discriminate].
    intros [= <- <-].
    destruct (IH _ _ _ (run_calls_settled _ _ _ Hs E) E2) as [Hl H2].
    split; [|done]. now constructor.
Qed.

Lemma run_jobs_log bodies jobs : ∀ s s' log,
  run_jobs bodies jobs s = Some (s', log) →
  map inv_job log = jobs ∧ (∀ i, head log = Some i → inv_state i = s).
Proof.
  induction jobs as [|j jobs IH]; intros s s' log; simpl.
  - intros [= <- <-]. split; [done|]. discriminate.
  - destruct (run_calls (bodies j) s) as [s1|]; [|discriminate].
    destruct (run_jobs bodies jobs s1) as [[s2 log2]|] eqn:E2; [|discriminate].
    intros [= <- <-]. simpl. destruct (IH _ _ _ E2) as [-> _].
    split; [done|]. now intros i [= <-].
Qed.

Lemma registered_entries_but job k q :
  registered job (entries_but k q) → registered job q.
Proof.
  unfold registered, entries_but. rewrite !list_elem_of_In, !in_map_iff.
  intros (e & E & He). exists e. split; [done|].
  apply list_elem_of_In. apply list_elem_of_In, list_elem_of_filter in He. tauto.
Qed.

Lemma not_registered_entries_but job q : ¬ registered job (entries_but job q).
Proof.
  unfold registered, entries_but. rewrite list_elem_of_In, in_map_iff.
  intros (e & E & He). apply list_elem_of_In, list_elem_of_filter in He. tauto.
Qed.

Lemma run_call_keeps_absent job c s s' :
  ¬ registered job (m_timers s) →
  (∀ timeout, c ≠ CallAddTimer job timeout) →
  run_call c s = Some s' →
  ¬ registered job (m_timers s').
Proof.
  intros Habs Hc. destruct c as [k timeout|k]; simpl.
  - unfold addTimer. destruct (CTimer_new k timeout) as [e|] eqn:E; [|discriminate].
    intros [= <-]. simpl. unfold pq_push, pq_swap, registered.
    rewrite map_app, elem_of_app. intros [H|H].
    + apply Habs. now apply (registered_entries_but job k).
    + unfold CTimer_new in E. destruct (N.eqb k NULL); [discriminate|].
      destruct (Qle_bool timeout 0); [discriminate|]. injection E as <-.
      simpl in H. apply list_elem_of_singleton in H. unfold getJob in H. simpl in H.
      subst k. now apply (Hc timeout).
  - intros [= <-]. simpl. unfold pq_swap. intros H. apply Habs.
    now apply (registered_entries_but job k).
Qed.

Lemma run_calls_keep_absent job cs : ∀ s s',
  ¬ registered job (m_timers s) → never_adds job cs →
  run_calls cs s = Some s' → ¬ registered job (m_timers s').
Proof.
  induction cs as [|c cs IH]; intros s s' Habs Hna; simpl; [now intros [= <-]|].
  destruct (run_call c s) as [s1|] eqn:E; [|discriminate].
  apply IH.
  - apply (run_call_keeps_absent job c s s1 Habs); [|done].
    intros timeout ->. apply (Hna timeout), list_elem_of_here.
  - intros timeout H. apply (Hna timeout). now apply list_elem_of_further.
Qed.

Lemma self_removal job pre post s s' :
  never_adds job post →
  run_calls (pre ++ CallRemoveTimer job :: post) s = Some s' →
  ¬ registered job (m_timers s').
Proof.
  intros Hna. rewrite run_calls_app.
  destruct (run_calls pre s) as [s1|]; [|discriminate]. simpl.
  apply (run_calls_keep_absent job post); [|done].
  rewrite removeTimer_timers. simpl. apply not_registered_entries_but.
Qed.

Section SelfRemovingJob.
Context (bodies : IJob → list TimerCall) (job : IJob) (pre post : list TimerCall).
Hypothesis body_removes : bodies job = pre ++ CallRemoveTimer job :: post.
Hypothesis body_stays_out : never_adds job post.
Hypothesis others_keep_out : ∀ k, k ≠ job → never_adds job (bodies k).

Lemma run_jobs_removes jobs : ∀ s s' log,
  job ∈ jobs ∨ ¬ registered job (m_timers s) →
  run_jobs bodies jobs s = Some (s', log) →
  ¬ registered job (m_timers s').
Proof.
  induction jobs as [|j jobs IH]; intros s s' log Hor; simpl.
  - intros [= <- <-]. destruct Hor as [H|H]; [|done]. now apply elem_of_nil in H.
  - destruct (run_calls (bodies j) s) as [s1|] eqn:E; [|discriminate].
    destruct (run_jobs bodies jobs s1) as [[s2 log2]|] eqn:E2; [|discriminate].
    intros [= <- <-]. apply (IH s1 s2 log2); [|done].
    destruct (decide (j = job)) as [->|Hne].
    + right. rewrite body_removes in E. now apply (self_removal job pre post s).
    + destruct Hor as [H|H].
      * left. apply elem_of_cons in H as [H|H]; [congruence|done].
      * right. apply (run_calls_keep_absent job (bodies j) s); auto.
Qed.

Lemma rearm_registered fuel : ∀ q acc q2 jobs,
  rearm fuel q acc = Some (q2, jobs) →
  (registered job q2 → registered job q)
  ∧ (job ∈ jobs → job ∈ acc ∨ registered job q).
Proof.
  induction fuel as [|fuel IH]; intros q acc q2 jobs; simpl; [discriminate|].
  destruct (pq_top q) as [t|] eqn:Ht; [|discriminate].
  destruct (Qle_bool (m_time t) 0).
  - intros Hr. apply IH in Hr as [H1 H2].
    assert (Hq : ∀ k, registered k (pq_push (CTimer_reset t) (pq_pop q)) →
                      registered k q).
    { intros k. unfold registered, pq_push.
      rewrite (Permutation_map getJob (pq_pop_perm _ _ Ht)).
      rewrite map_app, elem_of_app. simpl.
      rewrite list_elem_of_singleton, elem_of_cons. tauto. }
    split; [auto|]. intros Hj. destruct (H2 Hj) as [H|H]; [|auto].
    apply elem_of_app in H as [H|H]; [auto|].
    apply list_elem_of_singleton in H. right. rewrite H.
    unfold registered. apply list_elem_of_In, in_map, list_elem_of_In.
    now apply pq_top_elem.
  - intros [= <- <-]. auto.
Qed.

Lemma tick_keeps_absent s r s' log :
  ¬ registered job (m_timers s) →
  processTimers bodies s = Some (r, s', log) →
  ¬ registered job (m_timers s') ∧ job ∉ map inv_job log.
Proof.
  intros Habs. unfold processTimers, processTimers_locked. cbn -[rearm].
  destruct (pq_top (m_timers s)) as [t|] eqn:Ht.
  - destruct (Qle_bool (m_time t) (m_stopwatch s)).
    + destruct (rearm _ _ _) as [[q2 jobs]|] eqn:Hr; [|discriminate].
      destruct (run_jobs _ _ _) as [[s2 log2]|] eqn:Hj; [|discriminate].
      intros [= <- <- <-].
      apply rearm_registered in Hr as [H1 H2].
      assert (Hsub : ∀ k, registered k (map (CTimer_sub (m_stopwatch s)) (m_timers s))
                          → registered k (m_timers s)).
      { intros k. unfold registered. now rewrite map_map. }
      split.
      * apply (run_jobs_removes jobs _ _ _ (or_intror
                 (λ H, Habs (Hsub _ (H1 H))) : _ ∨ ¬ registered job (m_timers
                   (CLock_release (stopwatch_reset (set_timers q2 (CLock_acquire s))))))
                 Hj).
      * destruct (run_jobs_log _ _ _ _ _ Hj) as [-> _].
        intros H. destruct (H2 H) as [H'|H']; [now apply elem_of_nil in H'|].
        apply Habs, Hsub, H'.
    + intros [= <- <- <-]. split; [done|]. apply not_elem_of_nil.
  - intros [= <- <- <-]. split; [done|]. apply not_elem_of_nil.
Qed.

Lemma steps_keep_absent steps : ∀ s s' log,
  ¬ registered job (m_timers s) →
  (∀ timeout, StepCall (CallAddTimer job timeout) ∉ steps) →
  run_steps bodies steps s = Some (s', log) →
  job ∉ map inv_job log.
Proof.
  induction steps as [|st steps IH]; intros s s' log Habs Hst; simpl.
  - intros [= <- <-]. apply not_elem_of_nil.
  - assert (Hst' : ∀ timeout, StepCall (CallAddTimer job timeout) ∉ steps).
    { intros timeout H. apply (Hst timeout). now apply list_elem_of_further. }
    destruct st as [dt|c|].
    + now apply IH.
    + destruct (run_call c s) as [s1|] eqn:E; [|discriminate].
      apply IH; [|done].
      apply (run_call_keeps_absent job c s s1 Habs); [|done].
      intros timeout ->. apply (Hst timeout), list_elem_of_here.
    + destruct (processTimers bodies s) as [[[r s1] log1]|] eqn:E; [|discriminate].
      destruct (run_steps bodies steps s1) as [[s2 log2]|] eqn:E2; [|discriminate].
      intros [= <- <-]. destruct (tick_keeps_absent _ _ _ _ Habs E) as [H1 H2].
      rewrite map_app, elem_of_app. intros [H|H]; [done|].
      now apply (IH _ _ _ H1 Hst' E2).
Qed.

Lemma tick_removes s r s' log :
  job ∈ map inv_job log →
  processTimers bodies s = Some (r, s', log) →
  ¬ registered job (m_timers s').
Proof.
  intros Hin. unfold processTimers.
  destruct (processTimers_locked s) as [[s1 [jobs|]]|]; [| |discriminate].
  - destruct (run_jobs bodies jobs s1) as [[s2 log2]|] eqn:Hj; [|discriminate].
    intros [= <- <- <-]. apply (run_jobs_removes jobs s1 s2 log2); [|done].
    left. now destruct (run_jobs_log _ _ _ _ _ Hj) as [<- _].
  - intros [= <- <- <-]. now apply elem_of_nil in Hin.
Qed.
End SelfRemovingJob.

Lemma processTimers_locked_settled s s1 jobs :
  positive_periods (m_timers s) → m_timersMutex s = 0 →
  processTimers_locked s = Some (s1, Some jobs) → settled s1.
Proof.
  intros Hpos Hm. unfold processTimers_locked. cbn -[rearm].
  destruct (pq_top (m_timers s)) as [t|]; [|discriminate].
  destruct (Qle_bool (m_time t) (m_stopwatch s)); [|discriminate].
  destruct (rearm _ _ _) as [[q2 jobs2]|] eqn:Hr; [|discriminate].
  intros [= <- <-]. split; simpl; [now rewrite Hm|].
  now apply rearm_spec in Hr; [|apply positive_periods_sub].
Qed.

(** C9.  The jobs [processTimers] runs are the complete vector of due
    jobs the locked block has collected; the first of them finds the
    timers exactly as that block left them, and every one of them is
    invoked with [m_timersMutex] free and with no due entry left in the
    queue (every due entry has been rearmed).  Consequently a job whose
    [run()] calls [removeTimer] on itself, and that is not registered
    again afterwards (neither by the rest of its own body, nor by another
    job, nor by another thread), is invoked by no later tick. *)
Theorem job_removing_itself_never_runs_again
    (bodies : IJob → list TimerCall) (s : Timers)
    (r : option bool) (s' : Timers) (log : list Invocation) :
  positive_periods (m_timers s) →
  m_timersMutex s = 0 →
  processTimers bodies s = Some (r, s', log) →
  (∃ s1 jobs,
      processTimers_locked s = Some (s1, jobs)
      ∧ map inv_job log = from_option id [] jobs
      ∧ (∀ i, head log = Some i → inv_state i = s1)
      ∧ Forall (λ i, settled (inv_state i)) log)
  ∧ (∀ job pre post,
       job ∈ map inv_job log →
       bodies job = pre ++ CallRemoveTimer job :: post →
       never_adds job post →
       (∀ k, k ≠ job → never_adds job (bodies k)) →
       ∀ steps s'' log',
         (∀ timeout, StepCall (CallAddTimer job timeout) ∉ steps) →
         run_steps bodies steps s' = Some (s'', log') →
         job ∉ map inv_job log').
Proof.
  intros Hpos Hm Hp. split.
  - revert Hp. unfold processTimers.
    destruct (processTimers_locked s) as [[s1 [jobs|]]|] eqn:E; [| |discriminate].
    + destruct (run_jobs bodies jobs s1) as [[s2 log2]|] eqn:Hj; [|discriminate].
      intros [= <- <- <-]. exists s1, (Some jobs).
      destruct (run_jobs_log _ _ _ _ _ Hj) as [Hl Hh].
      split; [done|]. split; [done|]. split; [done|].
      apply (run_jobs_settled bodies jobs s1 s2); [|done].
      now apply (processTimers_locked_settled s s1 jobs).
    + intros [= <- <- <-]. exists s1, None.
      split; [done|]. split; [done|]. split; [discriminate|constructor].
  - intros job pre post Hin Hbody Hpost Hothers steps s'' log' Hsteps Hrun.
    apply (steps_keep_absent bodies job pre post Hbody Hpost Hothers steps s' s'' log');
      [|done|done].
    apply (tick_removes bodies job pre post Hbody Hpost Hothers s r s' log); done.
Qed.

Lemma job_removing_itself_never_runs_again_witness :
  ∃ r s' log,
    processTimers self_removing three_timers = Some (r, s', log)
    ∧ map inv_job log = [2%N; 3%N; 1%N]
    ∧ Forall (λ i, settled (inv_state i)) log
    ∧ ∀ s'' log',
        run_steps self_removing [StepElapse 20; StepTick; StepElapse 20; StepTick] s'
        = Some (s'', log') →
        1%N ∉ map inv_job log'.
Proof.
  assert (Hpos : positive_periods (m_timers three_timers)) by repeat constructor.
  eexists _, _, _. split; [reflexivity|].
  destruct (job_removing_itself_never_runs_again self_removing three_timers
              _ _ _ Hpos eq_refl eq_refl) as [(s1 & jobs & _ & _ & _ & Hs) Hnever].
  split; [reflexivity|]. split; [exact Hs|].
  intros s'' log'.
  apply (Hnever 1%N [] []).
  - simpl. do 2 apply list_elem_of_further. apply list_elem_of_here.
  - reflexivity.
  - intros timeout H. now apply elem_of_nil in H.
  - intros k Hk timeout. unfold self_removing.
    destruct (N.eqb_spec k 1); [done|]. apply not_elem_of_nil.
  - intros timeout H. repeat (apply elem_of_cons in H as [H|H]; [discriminate H|]).
    now apply elem_of_nil in H.
Defined.

(** ** Event dispatch *)

Lemma onPreDispatch_ClientMessage env s message_type format data_l0 :
  onPreDispatch env (ClientMessage message_type format data_l0) s
  = if N.eqb message_type (m_atomScreensaver s) || Z.eqb format 32
    then Some (true, s, [EOnScreensaver (negb (Z.eqb data_l0 0))])
    else Some (eventHandler_onPreDispatch env (ClientMessage message_type format data_l0),
               s,
               [EScreensaverOnPreDispatch (ClientMessage message_type format data_l0);
                EHandlerOnPreDispatch (ClientMessage message_type format data_l0)]).
Proof. reflexivity. Qed.

(** C3, what the code does.  A [ClientMessage] whose message type is not
    the screen saver atom is still taken for a screen saver notification
    when its format is 32: [onScreensaver] is called with its first data
    word and the event is reported handled, so that neither the screen
    saver nor the event handler sees it. *)
Theorem ClientMessage_format_32_taken_as_screensaver
    (env : Environment) (s : CXWindowsScreen) (message_type : Atom) (data_l0 : Z) :
  message_type ≠ m_atomScreensaver s →
  onPreDispatch env (ClientMessage message_type 32 data_l0) s
  = Some (true, s, [EOnScreensaver (negb (Z.eqb data_l0 0))]).
Proof.
  intros _. rewrite onPreDispatch_ClientMessage. simpl.
  now rewrite orb_true_r.
Qed.

Lemma ClientMessage_format_32_taken_as_screensaver_witness :
  onPreDispatch quiet_env (ClientMessage 5%N 32 0) bound_screen
  = Some (true, bound_screen, [EOnScreensaver false]).
Proof.
  apply (ClientMessage_format_32_taken_as_screensaver quiet_env bound_screen 5%N 0%Z).
  discriminate.
Defined.

Lemma destroyRequest_loop_length w cbs :
  length (destroyRequest_loop w cbs) = length cbs.
Proof.
  induction cbs as [|[c|] cbs IH]; simpl; [done| |now rewrite IH].
  destruct (has_request w c); simpl; now rewrite ?IH.
Qed.

Lemma none_before_cons_None w cbs id :
  none_before w (None :: cbs) (S id) ↔ none_before w cbs id.
Proof.
  unfold none_before. split; intros H j c Hj Hl.
  - apply (H (S j) c); [lia|done].
  - destruct j as [|j]; [discriminate|]. apply (H j c); [lia|done].
Qed.

Lemma destroyRequest_loop_lookup w cbs : ∀ id c,
  cbs !! id = Some (Some c) →
  (none_before w cbs id → destroyRequest_loop w cbs !! id = Some (Some (purged w c)))
  ∧ (some_before w cbs id → destroyRequest_loop w cbs !! id = Some (Some c)).
Proof.
  induction cbs as [|a cbs IH]; intros id c; [discriminate|].
  destruct id as [|id]; simpl.
  - intros [= ->]. split.
    + intros _. unfold purged. simpl. now destruct (has_request w c).
    + intros (j & cj & Hj & _). lia.
  - intros Hl. destruct (IH id c Hl) as [IHn IHs]. destruct a as [c0|].
    + simpl. destruct (has_request w c0) eqn:E; simpl.
      * split; [|done]. intros Hn. specialize (Hn 0 c0 ltac:(lia) eq_refl). congruence.
      * split.
        -- intros Hn. apply IHn. intros j cj Hj Hlj. apply (Hn (S j) cj); [lia|done].
        -- intros (j & cj & Hj & Hlj & Hr). apply IHs.
           destruct j as [|j]; [simpl in Hlj; congruence|].
           exists j, cj. split; [lia|done].
    + simpl. split.
      * intros Hn. now apply IHn, none_before_cons_None.
      * intros (j & cj & Hj & Hlj & Hr). apply IHs.
        destruct j as [|j]; [discriminate|]. exists j, cj. split; [lia|done].
Qed.

Lemma destroyRequest_loop_unbound w cbs : ∀ id,
  cbs !! id = Some None → destroyRequest_loop w cbs !! id = Some None.
Proof.
  induction cbs as [|a cbs IH]; intros id; [discriminate|].
  destruct id as [|id]; simpl.
  - now intros [= ->].
  - intros Hl. destruct a as [c0|]; simpl; [|now apply IH].
    destruct (has_request w c0); simpl; [done|now apply IH].
Qed.

(** C4, amended.  On a window-destroyed event the bound clipboards are
    asked in the order of their ids to drop the transfer requests of the
    destroyed window, and the asking stops at the first clipboard that
    holds such a request: that clipboard and the ones before it have the
    window's requests purged, the clipboards after it keep all their
    requests.  No completion signal is sent, null clipboards stay null,
    and the event is not marked handled: the screen saver sees it and the
    event handler's answer is returned. *)
Theorem DestroyNotify_purges_up_to_first_holder
    (env : Environment) (w : Window) (s : CXWindowsScreen) :
  ∃ s',
    onPreDispatch env (DestroyNotify w) s
    = Some (eventHandler_onPreDispatch env (DestroyNotify w), s',
            [EScreensaverOnPreDispatch (DestroyNotify w);
             EHandlerOnPreDispatch (DestroyNotify w)])
    ∧ length (m_clipboard s') = length (m_clipboard s)
    ∧ (∀ id, m_clipboard s !! id = Some None → m_clipboard s' !! id = Some None)
    ∧ (∀ id c, m_clipboard s !! id = Some (Some c) →
         (none_before w (m_clipboard s) id →
            m_clipboard s' !! id = Some (Some (purged w c)))
         ∧ (some_before w (m_clipboard s) id →
            m_clipboard s' !! id = Some (Some c)))
    ∧ (∀ c, cb_requests (purged w c)
            = filter (λ r, req_requestor r ≠ w) (cb_requests c)
            ∧ cb_sent (purged w c) = cb_sent c
            ∧ cb_content (purged w c) = cb_content c).
Proof.
  exists (destroyClipboardRequest w s). split; [reflexivity|]. simpl.
  split; [apply destroyRequest_loop_length|].
  split; [apply destroyRequest_loop_unbound|].
  split; [apply destroyRequest_loop_lookup|]. done.
Qed.

Lemma DestroyNotify_leaves_later_requests :
  ¬ ∃ r s' eff,
      onPreDispatch quiet_env (DestroyNotify 7%N) bound_screen = Some (r, s', eff)
      ∧ ∀ id c, m_clipboard s' !! id = Some (Some c) → has_request 7%N c = false.
Proof.
  intros (r & s' & eff & E & H). injection E as <- <- <-.
  specialize (H 1 _ eq_refl). discriminate H.
Qed.

(** ** Clipboards *)

Lemma set_clipboards_same s : set_clipboards (m_clipboard s) s = s.
Proof. now destruct s. Qed.

(** C7.  On an id whose clipboard is null, [setClipboard] (with data or
    without) and [getClipboard] return false and that is all: the screen
    and its clipboards are as before, the destination of [getClipboard] is
    untouched, no call reaches the X server or any collaborator, and the
    call has a result (no assertion fails). *)
Theorem unbound_clipboard_fails_locally
    (env : Environment) (id : ClipboardID) (s : CXWindowsScreen)
    (data : option Data) (dst : Data) :
  m_clipboard s !! id = Some None →
  setClipboard env id data s = Some (false, s, [])
  ∧ getClipboard env id (Some dst) s = Some (false, dst, s, []).
Proof.
  intros H. unfold setClipboard, getClipboard. now rewrite H.
Qed.

Lemma unbound_clipboard_fails_locally_witness :
  setClipboard quiet_env 1 (Some [(0, [104; 105]%Z)]) unbound_screen
  = Some (false, unbound_screen, [])
  ∧ getClipboard quiet_env 1 (Some [(0, [120]%Z)]) unbound_screen
    = Some (false, [(0, [120]%Z)], unbound_screen, []).
Proof.
  apply (unbound_clipboard_fails_locally quiet_env 1 unbound_screen). reflexivity.
Defined.

(** C5, amended.  [setClipboard] with a null clipboard on a bound id
    fetches a timestamp from the X server, one that is not
    [CurrentTime], and tries to open the clipboard at it.  If the open
    succeeds, the call relinquishes ownership: the clipboard is emptied
    and closed, it is Unowned, and the call returns true; a
    [getClipboard] right after it then yields no content: it returns
    false or hands back an empty clipboard.  If the open fails, the call
    returns false, and the clipboard is neither emptied nor closed nor
    given up: the screen is as before. *)
Theorem setClipboard_null_empties_when_open_succeeds
    (env : Environment) (id : ClipboardID) (c : CXWindowsClipboard)
    (s : CXWindowsScreen) :
  m_clipboard s !! id = Some (Some c) →
  let timestamp := getCurrentTime env (getWindow c) in
  timestamp ≠ CurrentTime
  ∧ (open_granted env timestamp c = true →
       ∃ s' c',
         setClipboard env id None s
         = Some (true, s',
                 [EGetCurrentTime (getWindow c); EClipboardOpen id timestamp;
                  EClipboardEmpty id; EClipboardClose id])
         ∧ m_clipboard s' !! id = Some (Some c')
         ∧ cb_owned c' = false
         ∧ cb_content c' = [] ∧ cb_opened c' = None
         ∧ ∀ dst, ∃ ok dst' s'' eff,
             getClipboard env id (Some dst) s' = Some (ok, dst', s'', eff)
             ∧ (ok = true → dst' = []) ∧ (ok = false → dst' = dst))
  ∧ (open_granted env timestamp c = false →
       setClipboard env id None s
       = Some (false, s, [EGetCurrentTime (getWindow c); EClipboardOpen id timestamp])).
Proof.
  intros Hc timestamp. split; [discriminate|]. split.
  - intros Hg. unfold setClipboard. rewrite Hc. fold timestamp. rewrite Hg. simpl.
    eexists _, _. split; [reflexivity|]. simpl.
    split; [apply list_lookup_insert_eq; now apply lookup_lt_Some in Hc|].
    split; [reflexivity|]. split; [reflexivity|]. split; [reflexivity|].
    intros dst. unfold getClipboard. simpl.
    rewrite list_lookup_insert_eq by (now apply lookup_lt_Some in Hc).
    unfold CClipboard_copy_from, clipboard_open. simpl.
    match goal with
    | |- context [open_granted env ?t ?c'] => destruct (open_granted env t c')
    end; simpl; eexists _, _, _, _; (split; [reflexivity|]); split; congruence.
  - intros Hg. unfold setClipboard. rewrite Hc. fold timestamp. rewrite Hg. simpl.
    rewrite list_insert_id by done. now rewrite set_clipboards_same.
Qed.

Lemma setClipboard_null_empties_when_open_succeeds_witness :
  ∃ s' c',
    setClipboard quiet_env 0 None bound_screen
    = Some (true, s',
            [EGetCurrentTime 50%N; EClipboardOpen 0 1000%N;
             EClipboardEmpty 0; EClipboardClose 0])
    ∧ m_clipboard s' !! 0 = Some (Some c')
    ∧ cb_owned c' = false
    ∧ cb_content c' = [] ∧ cb_opened c' = None
    ∧ ∀ dst, ∃ ok dst' s'' eff,
        getClipboard quiet_env 0 (Some dst) s' = Some (ok, dst', s'', eff)
        ∧ (ok = true → dst' = []) ∧ (ok = false → dst' = dst).
Proof.
  destruct (setClipboard_null_empties_when_open_succeeds quiet_env 0 _ bound_screen
              eq_refl) as (_ & Hok & _).
  exact (Hok eq_refl).
Defined.

Lemma setClipboard_null_can_return_false :
  ¬ ∃ s' eff, setClipboard refusing_env 0 None bound_screen = Some (true, s', eff).
Proof. intros (s' & eff & E). discriminate E. Qed.

(** ** Loss of the display *)

(** C8.  When the display connection is lost, [ioErrorHandler] sets the
    screen's [m_display] to null, calls the receiver's [onError()] (which
    finds [m_display] null already), and ends the process by [exit(17)]:
    one fixed status, not zero.  It does not return, so nothing runs
    after it; the rest of the screen is left as it was. *)
Theorem ioErrorHandler_clears_notifies_exits (s : CXWindowsScreen) :
  ∃ s' trace status,
    ioErrorHandler (Some s) = Some (s', trace, Exits status)
    ∧ m_display s' = None
    ∧ s' = set_display None s
    ∧ trace = [ELog false; EOnError None; ELog true]
    ∧ status = 17%Z
    ∧ status ≠ 0%Z.
Proof. now eexists _, _, _. Qed.

(** ** The cursor *)

Lemma SInt32_wrap_id z : in_SInt32 z → SInt32_wrap z = z.
Proof.
  unfold in_SInt32, SInt32_wrap. intros H.
  rewrite Z.mod_small; lia.
Qed.

Lemma shiftr_1_half z : Z.shiftr z 1 = (z / 2)%Z.
Proof. now rewrite Z.shiftr_div_pow2. Qed.

Lemma updateScreenShape_in_range width height s :
  (0 <= width < 2 ^ 31)%Z → (0 <= height < 2 ^ 31)%Z →
  in_SInt32 (m_x (updateScreenShape width height s)
             + m_w (updateScreenShape width height s) / 2)
  ∧ in_SInt32 (m_y (updateScreenShape width height s)
               + m_h (updateScreenShape width height s) / 2).
Proof.
  unfold in_SInt32. simpl. intros Hw Hh.
  pose proof (Z.div_pos width 2). pose proof (Z.div_pos height 2).
  pose proof (Z.div_le_upper_bound width 2 width).
  pose proof (Z.div_le_upper_bound height 2 height). lia.
Qed.

(** C10.  On an open display, with a screen shape whose centre is an
    [SInt32], [getCursorPos] always has a result: the coordinates the
    pointer query answers when it succeeds, and else the centre of the
    screen shape, [(m_x + m_w / 2, m_y + m_h / 2)] with the halves rounded
    down. *)
Theorem getCursorPos_pointer_or_centre
    (env : Environment) (s : CXWindowsScreen) (d : Display) :
  m_display s = Some d →
  in_SInt32 (m_x s + m_w s / 2) →
  in_SInt32 (m_y s + m_h s / 2) →
  getCursorPos env s
  = Some (match XQueryPointer env (m_root s) with
          | Some (mx, my) => (mx, my)
          | None => ((m_x s + m_w s / 2)%Z, (m_y s + m_h s / 2)%Z)
          end).
Proof.
  intros Hd Hx Hy. unfold getCursorPos, getRoot, getCursorCenter. rewrite Hd.
  destruct (XQueryPointer env (m_root s)) as [[mx my]|]; [done|].
  now rewrite !shiftr_1_half, !SInt32_wrap_id.
Qed.

Lemma getCursorPos_pointer_or_centre_witness :
  getCursorPos quiet_env bound_screen = Some (512, 384)%Z.
Proof.
  apply (getCursorPos_pointer_or_centre quiet_env bound_screen 1%N).
  - reflexivity.
  - unfold in_SInt32. vm_compute. split; [discriminate|reflexivity].
  - unfold in_SInt32. vm_compute. split; [discriminate|reflexivity].
Defined.

(** ** Calls made during a wait *)

Lemma run_external_keeps_stop c s s' :
  m_stop s = true → run_external c s = Some s' → m_stop s' = true.
Proof.
  intros Hs. destruct c as [|tc]; simpl; [now intros [= <-]|].
  destruct (run_call tc (timers s)); [|discriminate]. now intros [= <-].
Qed.

Lemma run_externals_keep_stop cs : ∀ s s',
  m_stop s = true → run_externals cs s = Some s' → m_stop s' = true.
Proof.
  induction cs as [|c cs IH]; intros s s' Hs; simpl; [now intros [= <-]|].
  destruct (run_external c s) as [s1|] eqn:E; [|discriminate].
  apply IH. now apply (run_external_keeps_stop c s).
Qed.

Lemma run_externals_stop cs : ∀ s s',
  ExtExitMainLoop ∈ cs → run_externals cs s = Some s' → m_stop s' = true.
Proof.
  induction cs as [|c cs IH]; intros s s' Hin; [now apply elem_of_nil in Hin|].
  simpl. destruct (run_external c s) as [s1|] eqn:E; [|discriminate].
  apply elem_of_cons in Hin as [<-|Hin].
  - injection E as <-. now apply run_externals_keep_stop.
  - now apply IH.
Qed.

Lemma after_wait_stop w s s1 :
  ExtExitMainLoop ∈ w_calls w → after_wait w s = Some s1 → m_stop s1 = true.
Proof.
  intros Hin. unfold after_wait.
  destruct (run_externals (w_calls w) s) as [s0|] eqn:E; [|discriminate].
  intros [= <-]. simpl. now apply (run_externals_stop _ _ _ Hin E).
Qed.

(** ** More on the timers *)

Lemma processTimers_locked_cases s :
  positive_periods (m_timers s) →
  processTimers_locked s = Some (s, None)
  ∨ ∃ q' jobs,
      processTimers_locked s = Some (mkTimers q' 0%Q (m_timersMutex s), Some jobs)
      ∧ q' ≡ₚ map rearm_entry (map (CTimer_sub (m_stopwatch s)) (m_timers s))
      ∧ jobs ≡ₚ map getJob (filter due (map (CTimer_sub (m_stopwatch s)) (m_timers s)))
      ∧ Forall (λ t, ¬ due t) q'.
Proof.
  intros Hpos. destruct (pq_top (m_timers s)) as [t|] eqn:Ht.
  - destruct (Qle_bool (m_time t) (m_stopwatch s)) eqn:E.
    + right. apply processTimers_locked_fires; [done|].
      apply Exists_exists. exists t. split; [now apply pq_top_elem|].
      now apply Qle_bool_iff.
    + left. apply processTimers_locked_idle. now apply (top_later_iff _ t).
  - left. apply processTimers_locked_idle. apply pq_top_None in Ht. rewrite Ht.
    constructor.
Qed.

Lemma rearm_sub_key time q :
  map (λ t, (m_job t, m_timeout t)) (map rearm_entry (map (CTimer_sub time) q))
  = map (λ t, (m_job t, m_timeout t)) q.
Proof.
  rewrite !map_map. apply map_ext. intros t. unfold rearm_entry.
  now destruct (decide (due (CTimer_sub time t))).
Qed.

(** X1.  With positive periods the locked block of [processTimers]
    always comes to an end, and firing keeps the registrations: afterwards
    the queue holds the same jobs with the same periods, none dropped and
    none doubled, and the lock is held as often as before. *)
Theorem processTimers_locked_ends_and_keeps_registrations (s : Timers) :
  positive_periods (m_timers s) →
  ∃ s1 r,
    processTimers_locked s = Some (s1, r)
    ∧ map (λ t, (m_job t, m_timeout t)) (m_timers s1)
      ≡ₚ map (λ t, (m_job t, m_timeout t)) (m_timers s)
    ∧ m_timersMutex s1 = m_timersMutex s.
Proof.
  intros Hpos. destruct (processTimers_locked_cases s Hpos)
    as [E|(q' & jobs & E & Hq & _)].
  - now exists s, None.
  - eexists _, _. split; [exact E|]. simpl. split; [|done].
    now rewrite (Permutation_map _ Hq), rearm_sub_key.
Qed.

Lemma processTimers_locked_ends_and_keeps_registrations_witness :
  ∃ s1 r,
    processTimers_locked two_timers = Some (s1, r)
    ∧ map (λ t, (m_job t, m_timeout t)) (m_timers s1)
      ≡ₚ [(1%N, 5%Q); (2%N, 3%Q)]
    ∧ m_timersMutex s1 = 0.
Proof.
  apply (processTimers_locked_ends_and_keeps_registrations two_timers).
  repeat constructor.
Defined.

(** X2.  An entry whose period is not positive and which is due at this
    tick keeps [processTimers] in its loop for ever: however many rounds
    the loop is given it has no result, and the call has none.  (This is
    what the constructor's [assert(m_timeout > 0.0)] keeps out.) *)
Theorem processTimers_hangs_on_nonpositive_period (s : Timers) (t : CTimer) :
  t ∈ m_timers s →
  (m_timeout t <= 0)%Q →
  (m_time t <= m_stopwatch s)%Q →
  (∀ fuel jobs,
     rearm fuel (map (CTimer_sub (m_stopwatch s)) (m_timers s)) jobs = None)
  ∧ processTimers_locked s = None.
Proof.
  intros Hin Hto Hdue.
  assert (Hstuck : ∀ fuel jobs,
            rearm fuel (map (CTimer_sub (m_stopwatch s)) (m_timers s)) jobs = None).
  { intros fuel jobs. apply rearm_stuck. exists (CTimer_sub (m_stopwatch s) t).
    split; [|split].
    - apply list_elem_of_In, in_map, list_elem_of_In, Hin.
    - unfold due. simpl. lra.
    - exact Hto. }
  split; [exact Hstuck|]. unfold processTimers_locked. cbn -[rearm].
  destruct (pq_top (m_timers s)) as [u|] eqn:Hu.
  - pose proof (pq_top_least _ _ _ Hu Hin) as Hle.
    assert (E : Qle_bool (m_time u) (m_stopwatch s) = true)
      by (apply Qle_bool_iff; lra).
    rewrite E. now rewrite Hstuck.
  - apply pq_top_None in Hu. rewrite Hu in Hin. now apply elem_of_nil in Hin.
Qed.

Lemma processTimers_hangs_on_nonpositive_period_witness :
  (∀ fuel jobs,
     rearm fuel (map (CTimer_sub (m_stopwatch bad_period)) (m_timers bad_period)) jobs
     = None)
  ∧ processTimers_locked bad_period = None.
Proof.
  apply (processTimers_hangs_on_nonpositive_period bad_period (mkCTimer 1%N (-1) 5)).
  - apply list_elem_of_here.
  - simpl. discriminate.
  - simpl. discriminate.
Defined.

(** X3.  [addTimer] has no result, because an assertion of the [CTimer]
    constructor fails, exactly when the job is null or the timeout is not
    positive; the timers it is called on play no part. *)
Theorem addTimer_asserts (job : IJob) (timeout : Q) (s : Timers) :
  addTimer job timeout s = None ↔ job = NULL ∨ (timeout <= 0)%Q.
Proof.
  unfold addTimer, CTimer_new. destruct (N.eqb_spec job NULL) as [E|E].
  - split; [now left|done].
  - destruct (Qle_bool timeout 0) eqn:Eq.
    + apply Qle_bool_iff in Eq. split; [now right|done].
    + split; [discriminate|]. intros [H|H]; [done|].
      apply Qle_bool_iff in H. congruence.
Qed.

Lemma addTimer_result job timeout s s' :
  addTimer job timeout s = Some s' →
  ∃ e, getJob e = job ∧ ¬ due e ∧ (0 < m_timeout e)%Q
       ∧ s' = set_timers (entries_but job (m_timers s) ++ [e]) s.
Proof.
  unfold addTimer, CTimer_new. destruct (N.eqb job NULL); [discriminate|].
  destruct (Qle_bool timeout 0) eqn:E; [discriminate|]. intros [= <-].
  assert (Hpos : ¬ (timeout <= 0)%Q) by (rewrite <- Qle_bool_iff; congruence).
  exists (mkCTimer job timeout timeout).
  split; [reflexivity|]. split; [exact Hpos|]. split; [simpl; lra|].
  now destruct s.
Qed.

(** X4.  Adding a timer and removing it again: [removeTimer(job)] after
    [addTimer(job, t)] leaves the timers as [removeTimer(job)] alone would
    have, and exactly as they were if the job had no entry before. *)
Theorem addTimer_then_removeTimer (job : IJob) (timeout : Q) (s s' : Timers) :
  addTimer job timeout s = Some s' →
  removeTimer job s' = removeTimer job s
  ∧ (¬ registered job (m_timers s) → removeTimer job s' = s).
Proof.
  intros (e & He & _ & _ & ->)%addTimer_result.
  assert (Hrm : removeTimer job (set_timers (entries_but job (m_timers s) ++ [e]) s)
                = removeTimer job s).
  { rewrite !removeTimer_timers. destruct s as [q sw m]. unfold set_timers. simpl.
    f_equal. unfold entries_but at 1. rewrite filter_app.
    fold (entries_but job (entries_but job q)).
    rewrite entries_but_but, filter_cons_False by tauto.
    now rewrite app_nil_r. }
  split; [exact Hrm|]. intros Habs. rewrite Hrm, removeTimer_timers.
  rewrite (entries_but_absent _ _ Habs). now destruct s.
Qed.

Lemma addTimer_then_removeTimer_witness :
  ∃ s', addTimer 3%N 8 two_timers = Some s'
        ∧ removeTimer 3%N s' = two_timers.
Proof.
  eexists. split; [reflexivity|].
  refine (proj2 (addTimer_then_removeTimer 3%N 8 two_timers _ eq_refl) _).
  unfold registered. simpl. intros H.
  repeat (apply elem_of_cons in H as [H|H]; [discriminate H|]).
  now apply elem_of_nil in H.
Defined.

Lemma elem_of_map_filter {A B} (f : A → B) (P : A → Prop) `{∀ x, Decision (P x)}
    (l : list A) (y : B) :
  y ∈ map f (filter P l) → y ∈ map f l.
Proof.
  rewrite !list_elem_of_In, !in_map_iff. intros (x & E & Hx). exists x.
  split; [done|]. apply list_elem_of_In. apply list_elem_of_In, list_elem_of_filter in Hx.
  tauto.
Qed.

Lemma NoDup_map_filter {A B} (f : A → B) (P : A → Prop) `{∀ x, Decision (P x)}
    (l : list A) :
  NoDup (map f l) → NoDup (map f (filter P l)).
Proof.
  induction l as [|a l IH]; simpl; [done|].
  intros [Hn Hd]%NoDup_cons. destruct (decide (P a)).
  - rewrite filter_cons_True by done. simpl. apply NoDup_cons. split; [|auto].
    intros Hin. apply Hn. now apply (elem_of_map_filter f P).
  - rewrite filter_cons_False by done. auto.
Qed.

Lemma positive_periods_key q :
  positive_periods q ↔ Forall (λ k, (0 < k.2)%Q) (map (λ t, (m_job t, m_timeout t)) q).
Proof. unfold positive_periods. now rewrite Forall_map. Qed.

Lemma run_call_invariant c s s' :
  timers_invariant s → run_call c s = Some s' → timers_invariant s'.
Proof.
  intros (Hnd & Hnull & Hpos & Hdue & Hm). destruct c as [job timeout|job]; simpl.
  - intros Hadd.
    assert (Hj : job ≠ NULL).
    { intros ->. assert (addTimer NULL timeout s = None) as E; [|congruence].
      unfold addTimer, CTimer_new. now rewrite N.eqb_refl. }
    apply addTimer_result in Hadd as (e & He & Hde & Hpe & ->).
    unfold timers_invariant, entries_but. simpl. rewrite map_app. simpl. rewrite He.
    split; [|split; [|split; [|split]]].
    + apply NoDup_app. split; [now apply NoDup_map_filter|]. split.
      * intros x Hx Hx'. apply list_elem_of_singleton in Hx'. subst x.
        now apply (not_registered_entries_but job (m_timers s)).
      * apply NoDup_singleton.
    + rewrite elem_of_app, list_elem_of_singleton. intros [H|H]; [|congruence].
      apply Hnull. now apply elem_of_map_filter in H.
    + apply Forall_app. split; [|now repeat constructor].
      unfold positive_periods in Hpos. rewrite Forall_forall in Hpos.
      apply Forall_forall. intros t Ht%list_elem_of_filter. apply Hpos, Ht.
    + apply Forall_app. split; [|now repeat constructor].
      rewrite Forall_forall in Hdue.
      apply Forall_forall. intros t Ht%list_elem_of_filter. apply Hdue, Ht.
    + done.
  - intros [= <-]. rewrite removeTimer_timers. unfold timers_invariant, entries_but. simpl.
    split; [now apply NoDup_map_filter|]. split; [|split; [|split]].
    + intros H. apply Hnull. now apply elem_of_map_filter in H.
    + unfold positive_periods in Hpos. rewrite Forall_forall in Hpos.
      apply Forall_forall. intros t Ht%list_elem_of_filter. apply Hpos, Ht.
    + rewrite Forall_forall in Hdue.
      apply Forall_forall. intros t Ht%list_elem_of_filter. apply Hdue, Ht.
    + done.
Qed.

Lemma run_calls_invariant cs : ∀ s s',
  timers_invariant s → run_calls cs s = Some s' → timers_invariant s'.
Proof.
  induction cs as [|c cs IH]; intros s s' Hs; simpl; [now intros [= <-]|].
  destruct (run_call c s) as [s1|] eqn:E; [|discriminate].
  apply IH. now apply (run_call_invariant c s).
Qed.

Lemma run_jobs_invariant bodies jobs : ∀ s s' log,
  timers_invariant s → run_jobs bodies jobs s = Some (s', log) →
  timers_invariant s' ∧ Forall (λ i, timers_invariant (inv_state i)) log.
Proof.
  induction jobs as [|j jobs IH]; intros s s' log Hs; simpl.
  - now intros [= <- <-].
  - destruct (run_calls (bodies j) s) as [s1|] eqn:E; [|discriminate].
    destruct (run_jobs bodies jobs s1) as [[s2 log2]|] eqn:E2; [|discriminate].
    intros [= <- <-].
    destruct (IH _ _ _ (run_calls_invariant _ _ _ Hs E) E2) as [H2 Hl].
    split; [done|]. now constructor.
Qed.

Lemma processTimers_locked_invariant s s1 r :
  timers_invariant s → processTimers_locked s = Some (s1, r) → timers_invariant s1.
Proof.
  intros (Hnd & Hnull & Hpos & Hdue & Hm) E.
  destruct (processTimers_locked_cases s Hpos) as [E'|(q' & jobs & E' & Hq & _ & Hd)];
    rewrite E' in E; injection E as <- <-; [done|].
  assert (Hkey : map (λ t, (m_job t, m_timeout t)) q'
                 ≡ₚ map (λ t, (m_job t, m_timeout t)) (m_timers s)).
  { now rewrite (Permutation_map _ Hq), rearm_sub_key. }
  assert (Hjobs : map getJob q' ≡ₚ map getJob (m_timers s)).
  { pose proof (Permutation_map fst Hkey) as H. now rewrite !map_map in H. }
  unfold timers_invariant. simpl. rewrite Hjobs.
  split; [done|]. split; [done|]. split; [|done].
  apply positive_periods_key. rewrite Hkey. now apply positive_periods_key.
Qed.

Lemma processTimers_invariant bodies s r s' log :
  timers_invariant s → processTimers bodies s = Some (r, s', log) →
  timers_invariant s' ∧ Forall (λ i, timers_invariant (inv_state i)) log.
Proof.
  intros Hs. unfold processTimers.
  destruct (processTimers_locked s) as [[s1 [jobs|]]|] eqn:E; [| |discriminate].
  - destruct (run_jobs bodies jobs s1) as [[s2 log2]|] eqn:Hj; [|discriminate].
    intros [= <- <- <-]. apply (run_jobs_invariant bodies jobs s1); [|done].
    now apply (processTimers_locked_invariant s s1 (Some jobs)).
  - intros [= <- <- <-]. split; [|constructor].
    now apply (processTimers_locked_invariant s s1 None).
Qed.

(** X5.  The timers keep their invariant through everything that can
    happen to them: time passing, [addTimer] and [removeTimer] calls from
    any thread, and calls of [processTimers] with whatever the jobs do.
    Each job has one entry at most, no entry has a null job, every period
    is positive, no entry is left due, and the lock is free; every job is
    invoked on timers of that kind. *)
Theorem timers_invariant_kept
    (bodies : IJob → list TimerCall) (steps : list Step)
    (s s' : Timers) (log : list Invocation) :
  timers_invariant s →
  run_steps bodies steps s = Some (s', log) →
  timers_invariant s' ∧ Forall (λ i, timers_invariant (inv_state i)) log.
Proof.
  revert s s' log. induction steps as [|st steps IH]; intros s s' log Hs; simpl.
  - now intros [= <- <-].
  - destruct st as [dt|c|].
    + apply IH. now destruct s.
    + destruct (run_call c s) as [s1|] eqn:E; [|discriminate].
      apply IH. now apply (run_call_invariant c s).
    + destruct (processTimers bodies s) as [[[r s1] log1]|] eqn:E; [|discriminate].
      destruct (run_steps bodies steps s1) as [[s2 log2]|] eqn:E2; [|discriminate].
      intros [= <- <-]. destruct (processTimers_invariant _ _ _ _ _ Hs E) as [H1 Hl1].
      destruct (IH _ _ _ H1 E2) as [H2 Hl2]. split; [done|]. now apply Forall_app.
Qed.

Lemma timers_invariant_kept_witness :
  ∃ s' log,
    run_steps self_removing sample_steps (mkTimers [] 0 0) = Some (s', log)
    ∧ timers_invariant s' ∧ Forall (λ i, timers_invariant (inv_state i)) log.
Proof.
  eexists _, _. split; [reflexivity|].
  apply (timers_invariant_kept self_removing sample_steps (mkTimers [] 0 0));
    [|reflexivity].
  unfold timers_invariant. simpl.
  split; [constructor|]. split; [apply not_elem_of_nil|]. repeat constructor.
Defined.

(** X6.  When no job has two entries (and the periods are positive), a
    call of [processTimers] runs each job once at most. *)
Theorem job_runs_once_per_tick_at_most
    (bodies : IJob → list TimerCall) (s : Timers)
    (r : option bool) (s' : Timers) (log : list Invocation) :
  NoDup (map getJob (m_timers s)) →
  positive_periods (m_timers s) →
  processTimers bodies s = Some (r, s', log) →
  NoDup (map inv_job log).
Proof.
  intros Hnd Hpos. unfold processTimers.
  destruct (processTimers_locked_cases s Hpos) as [E|(q' & jobs & E & _ & Hj & _)];
    rewrite E.
  - intros [= <- <- <-]. constructor.
  - destruct (run_jobs bodies jobs _) as [[s2 log2]|] eqn:Hr; [|discriminate].
    intros [= <- <- <-]. destruct (run_jobs_log _ _ _ _ _ Hr) as [-> _].
    rewrite Hj. apply NoDup_map_filter. now rewrite map_map.
Qed.

Lemma job_runs_once_per_tick_at_most_witness :
  ∃ r s' log,
    processTimers self_removing three_timers = Some (r, s', log)
    ∧ NoDup (map inv_job log).
Proof.
  eexists _, _, _. split; [reflexivity|].
  eapply (job_runs_once_per_tick_at_most self_removing three_timers);
    [|repeat constructor|reflexivity].
  simpl. repeat (apply NoDup_cons; split;
    [intros H; repeat (apply elem_of_cons in H as [H|H]; [discriminate H|]);
     now apply elem_of_nil in H|]).
  constructor.
Defined.

Lemma double_to_int_Some q :
  (0 <= q)%Q → (q < 2147483648)%Q →
  ∃ z, double_to_int q = Some z ∧ (0 <= z < 2 ^ 31)%Z
       ∧ (inject_Z z <= q)%Q ∧ (q < inject_Z z + 1)%Q.
Proof.
  destruct q as [a b]. unfold Qle, Qlt, double_to_int. simpl. intros H0 Hlt.
  assert (Ha : (0 <= a)%Z) by lia.
  rewrite Z.quot_div_nonneg by lia.
  pose proof (Z.div_pos a (Z.pos b) Ha ltac:(lia)) as Hz0.
  assert (Hz1 : (a / Z.pos b < 2 ^ 31)%Z) by (apply Z.div_lt_upper_bound; lia).
  exists (a / Z.pos b)%Z.
  assert (E1 : (- 2 ^ 31 <=? a / Z.pos b)%Z = true) by (apply Z.leb_le; lia).
  assert (E2 : (a / Z.pos b <? 2 ^ 31)%Z = true) by (now apply Z.ltb_lt).
  rewrite E1, E2. simpl. split; [done|]. split; [lia|].
  pose proof (Z.mul_div_le a (Z.pos b) ltac:(lia)).
  pose proof (Z.mul_succ_div_gt a (Z.pos b) ltac:(lia)).
  split; [lia|]. unfold Qplus; simpl. lia.
Qed.

Lemma double_to_int_None q : (2147483648 <= q)%Q → double_to_int q = None.
Proof.
  destruct q as [a b]. unfold Qle, double_to_int. simpl. intros H.
  rewrite Z.quot_div_nonneg by lia.
  assert (Hz : (2 ^ 31 <= a / Z.pos b)%Z) by (apply Z.div_le_lower_bound; lia).
  assert (E : (a / Z.pos b <? 2 ^ 31)%Z = false) by (apply Z.ltb_ge; lia).
  rewrite E. now rewrite andb_false_r.
Qed.

Lemma poll_timeout_Some q t :
  pq_top q = Some t → ¬ due t → (1000 * m_time t < 2147483648)%Q →
  ∃ z, poll_timeout q = Some z ∧ (0 <= z < 2 ^ 31)%Z
       ∧ (inject_Z z <= 1000 * m_time t)%Q ∧ (1000 * m_time t < inject_Z z + 1)%Q.
Proof.
  intros Ht Hd Hfit. unfold poll_timeout. rewrite Ht.
  apply double_to_int_Some; [|done]. unfold due in Hd. lra.
Qed.

Lemma poll_timeout_defined q :
  Forall (λ t, ¬ due t) q → timeout_fits q →
  ∃ z, poll_timeout q = Some z ∧ (q = [] → z = (-1)%Z) ∧ (q ≠ [] → (0 <= z)%Z).
Proof.
  intros Hd Hfit. destruct (pq_top q) as [t|] eqn:Ht.
  - rewrite Forall_forall in Hd.
    destruct (poll_timeout_Some q t Ht (Hd t (pq_top_elem _ _ Ht)) (Hfit t Ht))
      as (z & E & Hz & _).
    exists z. split; [done|]. split; [|lia]. intros ->. discriminate Ht.
  - exists (-1)%Z. apply pq_top_None in Ht. subst q. now split.
Qed.



(** ** More on event dispatch *)

Lemma getClipboardID_from_spec cbs selection : ∀ base,
  (∃ k c, getClipboardID_from base cbs selection = base + k
          ∧ cbs !! k = Some (Some c) ∧ getSelection c = selection
          ∧ ∀ j c', j < k → cbs !! j = Some (Some c') → getSelection c' ≠ selection)
  ∨ (getClipboardID_from base cbs selection = base + length cbs
     ∧ ∀ j c', cbs !! j = Some (Some c') → getSelection c' ≠ selection).
Proof.
  induction cbs as [|o cbs IH]; intros base; simpl.
  - right. split; [lia|]. intros j c'. now rewrite lookup_nil.
  - destruct o as [c|].
    + destruct (N.eqb_spec (getSelection c) selection) as [E|E].
      * left. exists 0, c. split; [lia|]. split; [done|]. split; [done|]. lia.
      * destruct (IH (S base)) as [(k & c0 & Hid & Hl & Hs & Hfirst)|[Hid Hnone]].
        -- left. exists (S k), c0. split; [lia|]. split; [done|]. split; [done|].
           intros [|j] c' Hj; simpl; [now intros [= <-]|]. apply Hfirst. lia.
        -- right. split; [lia|]. intros [|j] c'; simpl; [now intros [= <-]|].
           apply Hnone.
    + destruct (IH (S base)) as [(k & c0 & Hid & Hl & Hs & Hfirst)|[Hid Hnone]].
      * left. exists (S k), c0. split; [lia|]. split; [done|]. split; [done|].
        intros [|j] c' Hj; simpl; [discriminate|]. apply Hfirst. lia.
      * right. split; [lia|]. intros [|j] c'; simpl; [discriminate|]. apply Hnone.
Qed.

(** X8.  [getClipboardID] finds the first bound clipboard whose selection
    is the one asked for: the id it returns is below [kClipboardEnd], the
    clipboard there is not null and has that selection, and no bound
    clipboard with a smaller id has it.  It returns [kClipboardEnd] only
    when no bound clipboard has the selection. *)
Theorem getClipboardID_first_match (s : CXWindowsScreen) (selection : Atom) :
  (getClipboardID s selection < kClipboardEnd s
   ∧ ∃ c, m_clipboard s !! getClipboardID s selection = Some (Some c)
          ∧ getSelection c = selection
          ∧ ∀ j c', j < getClipboardID s selection →
                    m_clipboard s !! j = Some (Some c') →
                    getSelection c' ≠ selection)
  ∨ (getClipboardID s selection = kClipboardEnd s
     ∧ ∀ j c', m_clipboard s !! j = Some (Some c') → getSelection c' ≠ selection).
Proof.
  unfold getClipboardID, kClipboardEnd.
  destruct (getClipboardID_from_spec (m_clipboard s) selection 0)
    as [(k & c & -> & Hl & Hs & Hfirst)|[-> Hnone]].
  - left. simpl. split; [now apply lookup_lt_Some in Hl|]. now exists c.
  - now right.
Qed.

Lemma is_bound_insert cbs : ∀ id c c',
  cbs !! id = Some (Some c) →
  map is_bound (<[id := Some c']> cbs) = map is_bound cbs.
Proof.
  induction cbs as [|o cbs IH]; intros id c c'; [done|].
  destruct id as [|id]; simpl.
  - now intros [= ->].
  - intros H. now rewrite (IH id c c' H).
Qed.

Lemma same_but_clipboard_contents_refl s : same_but_clipboard_contents s s.
Proof. repeat split. Qed.


(** X10.  An event reaches the screen saver and the event handler's
    [onPreDispatch] together or not at all.  When [onPreDispatch] passes
    an event on, the screen saver sees it first, then the event handler,
    whose answer is the result; when the screen itself consumes the event,
    the result is true and neither of them is called. *)
Theorem onPreDispatch_passes_on_or_consumes
    (env : Environment) (e : XEvent) (s s' : CXWindowsScreen)
    (handled : bool) (eff : list Effect) :
  onPreDispatch env e s = Some (handled, s', eff) →
  (handled = eventHandler_onPreDispatch env e
   ∧ ∃ pre, eff = pre ++ [EScreensaverOnPreDispatch e; EHandlerOnPreDispatch e]
            ∧ (pre = [] ∨ pre = [EXRefreshKeyboardMapping]))
  ∨ (handled = true
     ∧ ∀ e', (EScreensaverOnPreDispatch e' ∉ eff) ∧ (EHandlerOnPreDispatch e' ∉ eff)).
Proof.
  assert (Hnone : ∀ e' : XEvent,
            (EScreensaverOnPreDispatch e' ∉ @nil Effect)
            ∧ (EHandlerOnPreDispatch e' ∉ @nil Effect)).
  { intros e'. split; apply not_elem_of_nil. }
  assert (Hone : ∀ (f : Effect) (e' : XEvent),
            (∀ x, f ≠ EScreensaverOnPreDispatch x) →
            (∀ x, f ≠ EHandlerOnPreDispatch x) →
            (EScreensaverOnPreDispatch e' ∉ [f]) ∧ (EHandlerOnPreDispatch e' ∉ [f])).
  { intros f e' H1 H2. split; intros H%list_elem_of_singleton; symmetry in H;
      [now apply H1 in H|now apply H2 in H]. }
  destruct e as [|selection time|requestor property
                 |owner requestor selection target time property
                 |window time atom state|message_type format data_l0|window|type];
    simpl.
  - intros [= <- <- <-]. left. split; [done|]. exists [EXRefreshKeyboardMapping]. auto.
  - destruct (Nat.eqb _ _).
    + intros [= <- <- <-]. left. split; [done|]. exists []. auto.
    + destruct (m_clipboard s !! _) as [[c|]|]; [|discriminate|discriminate].
      intros [= <- <- <-]. right. split; [done|]. intros e'. now apply Hone.
  - destruct (N.eqb property XNone); intros [= <- <- <-]; right; (split; [done|]);
      intros e'; [apply Hnone|now apply Hone].
  - destruct (Nat.eqb _ _).
    + intros [= <- <- <-]. left. split; [done|]. exists []. auto.
    + destruct (m_clipboard s !! _) as [[c|]|]; [|discriminate|discriminate].
      intros [= <- <- <-]. right. split; [done|]. apply Hnone.
  - destruct (Z.eqb state PropertyDelete); intros [= <- <- <-].
    + right. split; [done|]. apply Hnone.
    + left. split; [done|]. exists []. auto.
  - destruct (_ || _); intros [= <- <- <-].
    + right. split; [done|]. intros e'. now apply Hone.
    + left. split; [done|]. exists []. auto.
  - intros [= <- <- <-]. left. split; [done|]. exists []. auto.
  - intros [= <- <- <-]. left. split; [done|]. exists []. auto.
Qed.

Lemma onPreDispatch_passes_on_or_consumes_witness :
  (false = eventHandler_onPreDispatch quiet_env MappingNotify
   ∧ ∃ pre, [EXRefreshKeyboardMapping; EScreensaverOnPreDispatch MappingNotify;
             EHandlerOnPreDispatch MappingNotify]
            = pre ++ [EScreensaverOnPreDispatch MappingNotify;
                      EHandlerOnPreDispatch MappingNotify]
            ∧ (pre = [] ∨ pre = [EXRefreshKeyboardMapping]))
  ∨ (false = true
     ∧ ∀ e', (EScreensaverOnPreDispatch e'
              ∉ [EXRefreshKeyboardMapping; EScreensaverOnPreDispatch MappingNotify;
                 EHandlerOnPreDispatch MappingNotify])
             ∧ (EHandlerOnPreDispatch e'
                ∉ [EXRefreshKeyboardMapping; EScreensaverOnPreDispatch MappingNotify;
                   EHandlerOnPreDispatch MappingNotify])).
Proof.
  apply (onPreDispatch_passes_on_or_consumes quiet_env MappingNotify
           bound_screen bound_screen).
  reflexivity.
Defined.

Lemma processRequest_loop_lookup env requestor time property cbs : ∀ id c,
  cbs !! id = Some (Some c) →
  ((∀ j cj, j < id → cbs !! j = Some (Some cj) →
            fst (clipboard_processRequest env requestor time property cj) = false) →
     processRequest_loop env requestor time property cbs !! id
     = Some (Some (snd (clipboard_processRequest env requestor time property c))))
  ∧ ((∃ j cj, j < id ∧ cbs !! j = Some (Some cj)
              ∧ fst (clipboard_processRequest env requestor time property cj) = true) →
     processRequest_loop env requestor time property cbs !! id = Some (Some c)).
Proof.
  induction cbs as [|a cbs IH]; intros id c; [discriminate|].
  destruct id as [|id]; simpl.
  - intros [= ->]. split.
    + intros _. now destruct (clipboard_processRequest env requestor time property c)
        as [[|] c'].
    + intros (j & cj & Hj & _). lia.
  - intros Hl. destruct (IH id c Hl) as [IHn IHs]. destruct a as [c0|].
    + destruct (clipboard_processRequest env requestor time property c0)
        as [ok c0'] eqn:E0. destruct ok; simpl.
      * split; [|done]. intros Hn. specialize (Hn 0 c0 ltac:(lia) eq_refl).
        rewrite E0 in Hn. discriminate Hn.
      * split.
        -- intros Hn. apply IHn. intros j cj Hj Hlj. apply (Hn (S j) cj); [lia|done].
        -- intros (j & cj & Hj & Hlj & Hr). apply IHs.
           destruct j as [|j].
           ++ simpl in Hlj. injection Hlj as <-. rewrite E0 in Hr. discriminate Hr.
           ++ exists j, cj. split; [lia|done].
    + simpl. split.
      * intros Hn. apply IHn. intros j cj Hj Hlj. apply (Hn (S j) cj); [lia|done].
      * intros (j & cj & Hj & Hlj & Hr). apply IHs.
        destruct j as [|j]; [discriminate|]. exists j, cj. split; [lia|done].
Qed.

(** X11.  A property-deleted event is offered to the bound clipboards in
    the order of their ids, [processRequest] being called on each, until
    one of them reports success; the clipboards after that one are not
    called and stay as they are.  Null clipboards are skipped, and the
    event is reported handled whether or not a clipboard took it. *)
Theorem PropertyDelete_stops_at_first_success
    (env : Environment) (window : Window) (time : Time) (atom : Atom)
    (s : CXWindowsScreen) :
  ∃ s',
    onPreDispatch env (PropertyNotify window time atom PropertyDelete) s
    = Some (true, s', [])
    ∧ ∀ id c, m_clipboard s !! id = Some (Some c) →
        ((∀ j cj, j < id → m_clipboard s !! j = Some (Some cj) →
                  fst (clipboard_processRequest env window time atom cj) = false) →
           m_clipboard s' !! id
           = Some (Some (snd (clipboard_processRequest env window time atom c))))
        ∧ ((∃ j cj, j < id ∧ m_clipboard s !! j = Some (Some cj)
                    ∧ fst (clipboard_processRequest env window time atom cj) = true) →
           m_clipboard s' !! id = Some (Some c)).
Proof.
  eexists. split; [reflexivity|]. simpl. apply processRequest_loop_lookup.
Qed.








(** ** The main loop and [exitMainLoop] *)

Lemma pending_loop_stopped env script events s :
  m_stop s = true → pending_loop env script events s = Some (set_pending events s, []).
Proof.
  intros Hs. destruct script; [destruct events|]; simpl; now rewrite Hs.
Qed.

Lemma run_call_total c s : valid_call c → ∃ s', run_call c s = Some s'.
Proof.
  destruct c as [job timeout|job]; simpl.
  - intros [Hj Ht]. eexists. now apply addTimer_Some.
  - now eexists.
Qed.

Lemma run_calls_total cs : Forall valid_call cs → ∀ s, ∃ s', run_calls cs s = Some s'.
Proof.
  induction 1 as [|c cs Hc _ IH]; intros s; simpl; [now eexists|].
  destruct (run_call_total c s Hc) as [s1 ->]. apply IH.
Qed.

Lemma run_jobs_total bodies jobs :
  valid_bodies bodies → ∀ s, ∃ s' log, run_jobs bodies jobs s = Some (s', log).
Proof.
  intros Hb. induction jobs as [|j jobs IH]; intros s; simpl; [now eexists _, _|].
  destruct (run_calls_total (bodies j) (Hb j) s) as [s1 ->].
  destruct (IH s1) as (s2 & log & ->). now eexists _, _.
Qed.

Lemma processTimers_total bodies s :
  positive_periods (m_timers s) → valid_bodies bodies →
  ∃ r s' log, processTimers bodies s = Some (r, s', log).
Proof.
  intros Hpos Hb. unfold processTimers.
  destruct (processTimers_locked_cases s Hpos) as [E|(q' & jobs & E & _)]; rewrite E.
  - now eexists _, _, _.
  - destruct (run_jobs_total bodies jobs Hb (mkTimers q' 0%Q (m_timersMutex s)))
      as (s2 & log & ->).
    now eexists _, _, _.
Qed.

Lemma run_external_invariant c s s' :
  timers_invariant (timers s) → run_external c s = Some s' →
  timers_invariant (timers s').
Proof.
  intros Hi. destruct c as [|tc]; simpl; [now intros [= <-]|].
  destruct (run_call tc (timers s)) as [t|] eqn:E; [|discriminate].
  intros [= <-]. simpl. now apply (run_call_invariant tc (timers s)).
Qed.

Lemma run_externals_invariant cs : ∀ s s',
  timers_invariant (timers s) → run_externals cs s = Some s' →
  timers_invariant (timers s').
Proof.
  induction cs as [|c cs IH]; intros s s' Hi; simpl; [now intros [= <-]|].
  destruct (run_external c s) as [s1|] eqn:E; [|discriminate].
  apply IH. now apply (run_external_invariant c s).
Qed.

Lemma after_wait_invariant w s s1 :
  timers_invariant (timers s) → after_wait w s = Some s1 →
  timers_invariant (timers s1).
Proof.
  intros Hi. unfold after_wait.
  destruct (run_externals (w_calls w) s) as [s0|] eqn:E; [|discriminate].
  intros [= <-]. simpl. now apply (run_externals_invariant _ _ _ Hi E).
Qed.

Lemma poll_ends pending timeout w :
  w_cancel w = false →
  pending ++ w_arrivals w ≠ [] ∨ (0 <= timeout)%Z →
  poll pending timeout w = PollEvent ∨ poll pending timeout w = PollTimeout.
Proof.
  intros Hc Hends. unfold poll. rewrite Hc.
  destruct (pending ++ w_arrivals w) eqn:Ep; [|now left].
  destruct Hends as [H|H]; [done|]. right.
  apply Z.leb_le in H. now rewrite H.
Qed.

(** C6, amended.  On an open screen: [exitMainLoop()] only sets
    [m_stop]; a call from another thread while [mainLoop()] is inside
    [poll] is noticed when that [poll] is over.  In a wait without limit (no timer registered,
    no event pending or arriving, no cancellation of the thread) [poll]
    does not return and neither does [mainLoop()], though [m_stop] is
    set.  If an event is there or a timer is registered, and the timers
    are as the timer interface leaves them with the top timer's
    remaining time below [2^31] milliseconds, the wait ends; then
    [processTimers] runs the due jobs and returns (the jobs' calls
    passing their assertions), no event is dispatched and [mainLoop()]
    returns.  With a top timer whose remaining time is [2^31]
    milliseconds or more the timeout handed to [poll] has no defined
    value. *)
Theorem exitMainLoop_noticed_when_poll_ends
    (env : Environment) (w : Wait) (script : list Wait)
    (s s1 : CXWindowsScreen) (trace : list Effect) :
  m_display s ≠ None →
  m_stop s = false →
  ExtExitMainLoop ∈ w_calls w →
  w_cancel w = false →
  after_wait w s = Some s1 →
  m_stop s1 = true
  ∧ (m_timers (timers s) = [] → x_pending s ++ w_arrivals w = [] →
       mainLoop env (w :: script) s trace = LoopBlocked s1 trace)
  ∧ (x_pending s ++ w_arrivals w ≠ [] ∨ m_timers (timers s) ≠ [] →
     timers_invariant (timers s) →
     timeout_fits (m_timers (timers s)) →
     valid_bodies (job_run env) →
       ∃ r t2 log,
         processTimers (job_run env) (timers s1) = Some (r, t2, log)
         ∧ mainLoop env (w :: script) s trace
           = LoopReturned (set_screen_timers t2 s1)
               (trace ++ map (λ i, EJobRun (inv_job i)) log))
  ∧ (∀ t, pq_top (m_timers (timers s)) = Some t →
       (2147483648 <= 1000 * m_time t)%Q →
       mainLoop env (w :: script) s trace = LoopFailed).
Proof.
  intros _ Hs Hin Hc Hw.
  pose proof (after_wait_stop _ _ _ Hin Hw) as Hs1.
  split; [done|]. split; [|split].
  - intros Hq Hp. cbn [mainLoop]. rewrite Hs, Hq. simpl. rewrite Hw.
    unfold poll. now rewrite Hc, Hp.
  - intros Hends Hinv Hfit Hb.
    pose proof (after_wait_invariant _ _ _ Hinv Hw) as (_ & _ & Hpos1 & _).
    destruct (processTimers_total (job_run env) (timers s1) Hpos1 Hb)
      as (r & t2 & log & Hpt).
    exists r, t2, log. split; [done|].
    destruct Hinv as (_ & _ & _ & Hdue & _).
    destruct (poll_timeout_defined _ Hdue Hfit) as (z & Hz & _ & Hnn).
    assert (Hpoll : poll (x_pending s) z w = PollEvent
                    ∨ poll (x_pending s) z w = PollTimeout).
    { apply poll_ends; [done|]. destruct Hends as [H|H]; [now left|right; auto]. }
    assert (Hloop : pending_loop env (w_dispatch w) (x_pending s1)
                      (set_screen_timers t2 s1)
                    = Some (set_screen_timers t2 s1, [])).
    { rewrite pending_loop_stopped by done. now destruct s1. }
    cbn [mainLoop]. rewrite Hs, Hz, Hw.
    destruct Hpoll as [-> | ->]; rewrite Hpt, Hloop; destruct script; simpl;
      rewrite Hs1, app_nil_r; reflexivity.
  - intros t Ht Hbig. cbn [mainLoop]. rewrite Hs. unfold poll_timeout. rewrite Ht.
    now rewrite (double_to_int_None _ Hbig).
Qed.

Lemma exitMainLoop_noticed_when_poll_ends_witness :
  mainLoop quiet_env [exit_during_wait] bound_screen []
  = LoopBlocked (after_exit_during_wait) []
  ∧ (∃ r t2 log,
       processTimers (job_run quiet_env) (timers after_exit_and_event) = Some (r, t2, log)
       ∧ mainLoop quiet_env [exit_and_event] bound_screen []
         = LoopReturned (set_screen_timers t2 after_exit_and_event)
             ([] ++ map (λ i, EJobRun (inv_job i)) log))
  ∧ (∃ r t2 log,
       processTimers (job_run quiet_env) (timers after_exit_during_timed_wait)
       = Some (r, t2, log)
       ∧ mainLoop quiet_env [exit_during_timed_wait] timed_screen []
         = LoopReturned (set_screen_timers t2 after_exit_during_timed_wait)
             ([] ++ map (λ i, EJobRun (inv_job i)) log))
  ∧ mainLoop quiet_env [exit_during_timed_wait] timed_screen []
    = LoopReturned (exitMainLoop timed_screen) [EJobRun 1%N]
  ∧ mainLoop quiet_env [exit_during_wait] far_timer_screen [] = LoopFailed.
Proof.
  split; [|split; [|split; [|split]]].
  - apply (exitMainLoop_noticed_when_poll_ends quiet_env exit_during_wait []
             bound_screen after_exit_during_wait []);
      try reflexivity; [discriminate|apply list_elem_of_here].
  - apply (exitMainLoop_noticed_when_poll_ends quiet_env exit_and_event []
             bound_screen after_exit_and_event []
             ltac:(discriminate) eq_refl (list_elem_of_here _ _) eq_refl eq_refl).
    + left. discriminate.
    + unfold timers_invariant. simpl.
      split; [constructor|]. split; [apply not_elem_of_nil|]. repeat constructor.
    + intros t. discriminate.
    + intros j. constructor.
  - apply (exitMainLoop_noticed_when_poll_ends quiet_env exit_during_timed_wait []
             timed_screen after_exit_during_timed_wait []
             ltac:(discriminate) eq_refl (list_elem_of_here _ _) eq_refl eq_refl).
    + right. discriminate.
    + unfold timers_invariant. simpl.
      split; [apply NoDup_singleton|]. split.
      * intros H. apply list_elem_of_singleton in H. discriminate H.
      * split; [repeat constructor|]. split; [|reflexivity].
        constructor; [|constructor]. unfold due. simpl.
        intros H. apply Qle_bool_iff in H. discriminate H.
    + intros t [= <-]. reflexivity.
    + intros j. constructor.
  - reflexivity.
  - apply (exitMainLoop_noticed_when_poll_ends quiet_env exit_during_wait []
             far_timer_screen
             (set_screen_timers (mkTimers [mkCTimer 1%N 3000000 3000000] (0 + 60) 0)
                (exitMainLoop far_timer_screen)) []
             ltac:(discriminate) eq_refl (list_elem_of_here _ _) eq_refl eq_refl)
      with (t := mkCTimer 1%N 3000000 3000000); [reflexivity|discriminate].
Defined.

Lemma exitMainLoop_alone_does_not_end_the_wait :
  ¬ ∃ script s' trace,
      mainLoop quiet_env (exit_during_wait :: script) bound_screen [] = LoopReturned s' trace.
Proof. intros (script & s' & trace & E). discriminate E. Qed.

(** X13.  [mainLoop] returns only with the stop flag up, and what it
    returns with carries on the trace it was started with: nothing
    recorded before is lost. *)
Theorem mainLoop_returns_only_when_stopped
    (env : Environment) (script : list Wait) (s s' : CXWindowsScreen)
    (trace trace' : list Effect) :
  mainLoop env script s trace = LoopReturned s' trace' →
  m_stop s' = true ∧ ∃ more, trace' = trace ++ more.
Proof.
  revert s trace. induction script as [|w script IH]; intros s trace; simpl.
  - destruct (m_stop s) eqn:Hs; [|discriminate].
    intros [= <- <-]. split; [done|]. exists []. now rewrite app_nil_r.
  - destruct (m_stop s) eqn:Hs.
    + intros [= <- <-]. split; [done|]. exists []. now rewrite app_nil_r.
    + destruct (poll_timeout _) as [timeout|]; [|discriminate].
      destruct (after_wait w s) as [s1|]; [|discriminate].
      destruct (poll _ _ _); try discriminate;
        (destruct (processTimers _ _) as [[[r t2] log]|]; [|discriminate];
         destruct (pending_loop _ _ _ _) as [[s3 eff]|]; [|discriminate];
         intros H; apply IH in H as [H1 [more ->]]; split; [done|];
         eexists; now rewrite <- app_assoc).
Qed.

Lemma mainLoop_returns_only_when_stopped_witness :
  m_stop (set_screen_timers (timers after_exit_and_event) after_exit_and_event) = true
  ∧ ∃ more, @nil Effect = [] ++ more.
Proof.
  apply (mainLoop_returns_only_when_stopped quiet_env [exit_and_event] bound_screen).
  reflexivity.
Defined.

(** X14.  While [mainLoop] waits without limit (no timer was registered
    when it computed its timeout, no event is pending or arrives, the
    thread is not cancelled), nothing another thread does ends the wait:
    a timer registered by [addTimer] in the meantime is not served,
    however much time goes by. *)
Theorem wait_without_limit_ignores_other_threads
    (env : Environment) (w : Wait) (script : list Wait)
    (s s1 : CXWindowsScreen) (trace : list Effect) :
  m_stop s = false →
  m_timers (timers s) = [] →
  x_pending s ++ w_arrivals w = [] →
  w_cancel w = false →
  after_wait w s = Some s1 →
  mainLoop env (w :: script) s trace = LoopBlocked s1 trace.
Proof.
  intros Hs Hq Hp Hc Hw. cbn [mainLoop]. rewrite Hs, Hq. simpl. rewrite Hw.
  unfold poll. now rewrite Hc, Hp.
Qed.

Lemma wait_without_limit_ignores_other_threads_witness :
  ∃ s1, mainLoop quiet_env [timer_added_during_wait] bound_screen []
        = LoopBlocked s1 []
        ∧ m_timers (timers s1) = [mkCTimer 4%N 2 2]
        ∧ m_stopwatch (timers s1) = (0 + 3600)%Q.
Proof.
  eexists. split.
  - apply (wait_without_limit_ignores_other_threads quiet_env timer_added_during_wait
             [] bound_screen); reflexivity.
  - split; reflexivity.
Defined.

(** ** More on the clipboards *)

Lemma lookup_destroy_clipboards cbs (id : nat) :
  id < length cbs → destroy_clipboards cbs !! id = Some None.
Proof.
  revert id. induction cbs as [|o cbs IH]; intros id; simpl; [lia|].
  destruct id as [|id]; [done|]. intros H. apply IH. lia.
Qed.

Lemma length_destroy_clipboards cbs : length (destroy_clipboards cbs) = length cbs.
Proof. unfold destroy_clipboards. now rewrite length_map. Qed.

Lemma destroy_clipboards_twice cbs :
  destroy_clipboards (destroy_clipboards cbs) = destroy_clipboards cbs.
Proof. unfold destroy_clipboards. rewrite map_map. reflexivity. Qed.

(** X15.  [setClipboard] and [getClipboard] on an id of the array work
    on that one clipboard only: they have a result, the array keeps its
    length, every other slot is exactly as before, and so is everything
    else of the screen; a bound slot stays bound and a null one null. *)
Theorem clipboard_calls_touch_one_slot
    (env : Environment) (id : ClipboardID) (data : option Data) (dst : Data)
    (s : CXWindowsScreen) :
  id < kClipboardEnd s →
  (∃ ok s' eff,
      setClipboard env id data s = Some (ok, s', eff)
      ∧ same_but_clipboard_contents s s'
      ∧ ∀ j, j ≠ id → m_clipboard s' !! j = m_clipboard s !! j)
  ∧ (∃ ok dst' s' eff,
        getClipboard env id (Some dst) s = Some (ok, dst', s', eff)
        ∧ same_but_clipboard_contents s s'
        ∧ ∀ j, j ≠ id → m_clipboard s' !! j = m_clipboard s !! j).
Proof.
  intros Hid. unfold kClipboardEnd in Hid.
  unfold setClipboard, getClipboard.
  destruct (m_clipboard s !! id) as [o|] eqn:Ho;
    [|apply lookup_ge_None in Ho; lia].
  destruct o as [c|].
  - split.
    + destruct data as [d|].
      * destruct (CClipboard_copy_to _ _ c d) as [ok c'].
        eexists _, _, _. split; [reflexivity|]. simpl. split.
        -- repeat split. simpl. now apply (is_bound_insert _ _ c).
        -- intros j Hj. now apply list_lookup_insert_ne.
      * destruct (clipboard_open _ _ c) as [[|] c'];
          eexists _, _, _; (split; [reflexivity|]); simpl; (split;
            [repeat split; simpl; now apply (is_bound_insert _ _ c)
            |intros j Hj; now apply list_lookup_insert_ne]).
    + destruct (CClipboard_copy_from _ _ dst c) as [[ok dst'] c'].
      eexists _, _, _, _. split; [reflexivity|]. simpl. split.
      * repeat split. simpl. now apply (is_bound_insert _ _ c).
      * intros j Hj. now apply list_lookup_insert_ne.
  - split.
    + eexists _, _, _. split; [reflexivity|].
      split; [apply same_but_clipboard_contents_refl|done].
    + eexists _, _, _, _. split; [reflexivity|].
      split; [apply same_but_clipboard_contents_refl|done].
Qed.

Lemma clipboard_calls_touch_one_slot_witness :
  ∃ ok s' eff,
    setClipboard quiet_env 0 (Some [(0, [120]%Z)]) bound_screen = Some (ok, s', eff)
    ∧ same_but_clipboard_contents bound_screen s'
    ∧ ∀ j, j ≠ 0 → m_clipboard s' !! j = m_clipboard bound_screen !! j.
Proof.
  refine (proj1 (clipboard_calls_touch_one_slot quiet_env 0 (Some [(0, [120]%Z)]) []
                   bound_screen _)).
  unfold kClipboardEnd. simpl. lia.
Defined.

(** ** The window, [open] and [close] *)

(** X16.  With the display open, [setWindow] of a window other than
    [None] saves the window and puts a newly constructed clipboard, made
    for the display, that window and the slot's id, in every slot of the
    array; what the old clipboards held (content, pending requests) is
    gone with them.  The array keeps its length. *)
Theorem setWindow_rebinds_every_clipboard
    (new_clipboard : Display → Window → ClipboardID → CXWindowsClipboard)
    (window : Window) (s : CXWindowsScreen) (d : Display) :
  m_display s = Some d →
  window ≠ XNone →
  ∃ s',
    setWindow new_clipboard window s = Some s'
    ∧ m_window s' = window
    ∧ kClipboardEnd s' = kClipboardEnd s
    ∧ ∀ id : ClipboardID, id < kClipboardEnd s →
            m_clipboard s' !! id = Some (Some (new_clipboard d window id)).
Proof.
  intros Hd Hw. unfold setWindow. rewrite Hd.
  destruct (N.eqb_spec window XNone) as [E|_]; [done|].
  eexists. split; [reflexivity|]. simpl. split; [done|]. split.
  - unfold kClipboardEnd. simpl. now rewrite length_imap, length_destroy_clipboards.
  - intros id Hid. unfold ClipboardID in *. rewrite list_lookup_imap.
    now rewrite (lookup_destroy_clipboards _ _ Hid).
Qed.

Lemma setWindow_rebinds_every_clipboard_witness :
  ∃ s',
    setWindow fresh_clipboard 60%N bound_screen = Some s'
    ∧ m_window s' = 60%N
    ∧ kClipboardEnd s' = 2
    ∧ ∀ id : ClipboardID, id < 2 →
        m_clipboard s' !! id = Some (Some (fresh_clipboard 1%N 60%N id)).
Proof.
  apply (setWindow_rebinds_every_clipboard fresh_clipboard 60%N bound_screen 1%N).
  - reflexivity.
  - discriminate.
Defined.

(** X17.  With the display open, [setWindow(None)] leaves every clipboard
    null; from then on [setClipboard] and [getClipboard] return false for
    every id of the array, without a call to the X server and without a
    change to the screen. *)
Theorem setWindow_None_unbinds_every_clipboard
    (new_clipboard : Display → Window → ClipboardID → CXWindowsClipboard)
    (env : Environment) (s : CXWindowsScreen) (d : Display) :
  m_display s = Some d →
  ∃ s',
    setWindow new_clipboard XNone s = Some s'
    ∧ m_window s' = XNone
    ∧ kClipboardEnd s' = kClipboardEnd s
    ∧ ∀ (id : ClipboardID) data dst, id < kClipboardEnd s →
        m_clipboard s' !! id = Some None
        ∧ setClipboard env id data s' = Some (false, s', [])
        ∧ getClipboard env id (Some dst) s' = Some (false, dst, s', []).
Proof.
  intros Hd. unfold setWindow. rewrite Hd. simpl.
  eexists. split; [reflexivity|]. simpl. split; [done|]. split.
  - unfold kClipboardEnd. simpl. apply length_destroy_clipboards.
  - intros id data dst Hid. unfold setClipboard, getClipboard, ClipboardID in *. simpl.
    now rewrite (lookup_destroy_clipboards _ _ Hid).
Qed.

Lemma setWindow_None_unbinds_every_clipboard_witness :
  ∃ s',
    setWindow fresh_clipboard XNone bound_screen = Some s'
    ∧ m_window s' = XNone
    ∧ kClipboardEnd s' = 2
    ∧ ∀ (id : ClipboardID) data dst, id < 2 →
        m_clipboard s' !! id = Some None
        ∧ setClipboard quiet_env id data s' = Some (false, s', [])
        ∧ getClipboard quiet_env id (Some dst) s' = Some (false, dst, s', []).
Proof.
  apply (setWindow_None_unbinds_every_clipboard fresh_clipboard quiet_env
           bound_screen 1%N).
  reflexivity.
Defined.

(** The name of the display [open] connects to. *)
Lemma open_unfold DISPLAY server s ss :
  m_display s = None →
  open DISPLAY server s ss
  = match server (default ":0.0"%string DISPLAY) with
    | None =>
        Some (ThrowsXScreenOpenFailure s ss,
              [XSetIOErrorHandler true; XOpenDisplay (default ":0.0"%string DISPLAY)])
    | Some x =>
        Some (Opened
                (set_atomScreensaver (xs_screensaver x)
                   (updateScreenShape (xs_width x) (xs_height x)
                      (set_root (xs_root x) (set_display (Some (xs_display x)) s))))
                {| m_screensaver := Some [];
                   m_screensaverNotify := m_screensaverNotify ss |},
              [XSetIOErrorHandler true; XOpenDisplay (default ":0.0"%string DISPLAY)])
    end.
Proof. intros H. unfold open. rewrite H. now destruct DISPLAY. Qed.

(** X18.  A whole life of the screen.  [open] on a closed screen, when
    the server answers, installs the I/O error handler, connects to the
    display named by DISPLAY (":0.0" if it is not set), and leaves the
    screen with that display, a shape at the origin of the server's width
    and height, and a screen saver object; the clipboards are not
    touched.  A second [open] fails its assertion.  [close] then destroys
    the screen saver and every clipboard, closes that display once and
    removes the error handler; after it the display is null, so [open] is
    allowed again, and a second [close] closes no display. *)
Theorem open_then_close
    (DISPLAY : option String.string) (server : String.string → option XServer)
    (x : XServer) (s : CXWindowsScreen) (ss : ScreenSaverMembers) :
  m_display s = None →
  server (default ":0.0"%string DISPLAY) = Some x →
  ∃ s1 ss1,
    open DISPLAY server s ss
    = Some (Opened s1 ss1,
            [XSetIOErrorHandler true; XOpenDisplay (default ":0.0"%string DISPLAY)])
    ∧ m_display s1 = Some (xs_display x)
    ∧ getShape s1 = Some (0, 0, xs_width x, xs_height x)%Z
    ∧ m_clipboard s1 = m_clipboard s
    ∧ m_screensaver ss1 = Some []
    ∧ (∀ DISPLAY' server', open DISPLAY' server' s1 ss1 = None)
    ∧ ∃ s2 ss2,
        close s1 ss1 = (s2, ss2, [XCloseDisplay (xs_display x); XSetIOErrorHandler false])
        ∧ m_display s2 = None
        ∧ m_screensaver ss2 = None
        ∧ m_clipboard s2 = destroy_clipboards (m_clipboard s)
        ∧ close s2 ss2 = (s2, ss2, [XSetIOErrorHandler false])
        ∧ ∃ r, open DISPLAY server s2 ss2 = Some (r, [XSetIOErrorHandler true;
                 XOpenDisplay (default ":0.0"%string DISPLAY)]).
Proof.
  intros Hd Hx. rewrite (open_unfold _ _ _ _ Hd), Hx.
  eexists _, _. split; [reflexivity|]. simpl.
  split; [done|]. split; [done|]. split; [done|]. split; [done|].
  split; [done|]. eexists _, _. split; [reflexivity|]. simpl.
  split; [done|]. split; [done|]. split; [done|]. split.
  - unfold close. simpl. now rewrite destroy_clipboards_twice.
  - rewrite open_unfold by done. rewrite Hx. eauto.
Qed.

Lemma open_then_close_witness :
  ∃ s1 ss1,
    open None (λ _, Some sample_server) (fst (CXWindowsScreen_new 2))
      (snd (CXWindowsScreen_new 2))
    = Some (Opened s1 ss1, [XSetIOErrorHandler true; XOpenDisplay ":0.0"%string])
    ∧ getShape s1 = Some (0, 0, 1280, 1024)%Z
    ∧ ∃ s2 ss2,
        close s1 ss1 = (s2, ss2, [XCloseDisplay 9%N; XSetIOErrorHandler false])
        ∧ m_display s2 = None.
Proof.
  destruct (open_then_close None (λ _, Some sample_server) sample_server
              (fst (CXWindowsScreen_new 2)) (snd (CXWindowsScreen_new 2))
              eq_refl eq_refl)
    as (s1 & ss1 & E & _ & Hshape & _ & _ & _ & s2 & ss2 & Ec & Hd2 & _).
  exists s1, ss1. split; [exact E|]. split; [exact Hshape|].
  exists s2, ss2. split; [exact Ec|exact Hd2].
Defined.

(** X19.  When the connection cannot be made, [open] throws
    [XScreenOpenFailure]; the I/O error handler is installed by then, and
    the screen is as it was, still closed.  [close] after that closes no
    display and removes the handler, and [open] can be tried again. *)
Theorem open_failure_leaves_screen_closed
    (DISPLAY : option String.string) (server : String.string → option XServer)
    (s : CXWindowsScreen) (ss : ScreenSaverMembers) :
  m_display s = None →
  server (default ":0.0"%string DISPLAY) = None →
  open DISPLAY server s ss
  = Some (ThrowsXScreenOpenFailure s ss,
          [XSetIOErrorHandler true; XOpenDisplay (default ":0.0"%string DISPLAY)])
  ∧ (∃ s2 ss2, close s ss = (s2, ss2, [XSetIOErrorHandler false])
               ∧ m_display s2 = None)
  ∧ ∀ server' x, server' (default ":0.0"%string DISPLAY) = Some x →
      ∃ s1 ss1 calls, open DISPLAY server' s ss = Some (Opened s1 ss1, calls)
                      ∧ m_display s1 = Some (xs_display x).
Proof.
  intros Hd Hx. rewrite (open_unfold _ _ _ _ Hd), Hx. split; [done|]. split.
  - unfold close. simpl. rewrite Hd. eauto.
  - intros server' x Hx'. rewrite (open_unfold _ _ _ _ Hd), Hx'. eauto.
Qed.

Lemma open_failure_leaves_screen_closed_witness :
  open (Some "host:1"%string) (λ _, None) (fst (CXWindowsScreen_new 2))
    (snd (CXWindowsScreen_new 2))
  = Some (ThrowsXScreenOpenFailure (fst (CXWindowsScreen_new 2))
            (snd (CXWindowsScreen_new 2)),
          [XSetIOErrorHandler true; XOpenDisplay "host:1"%string]).
Proof.
  apply (open_failure_leaves_screen_closed (Some "host:1"%string) (λ _, None)
           (fst (CXWindowsScreen_new 2)) (snd (CXWindowsScreen_new 2)));
    reflexivity.
Defined.

(** X20.  On a closed screen (before [open], after [close], after the
    loss of the display) the functions that assert an open display have
    no result: [getShape], [getCursorCenter], [getCursorPos], [getRoot]
    and [setWindow]. *)
Theorem closed_screen_asserts
    (env : Environment)
    (new_clipboard : Display → Window → ClipboardID → CXWindowsClipboard)
    (window : Window) (s : CXWindowsScreen) (ss : ScreenSaverMembers) :
  let closed := fst (fst (close s ss)) in
  m_display closed = None
  ∧ getShape closed = None
  ∧ getCursorCenter closed = None
  ∧ getCursorPos env closed = None
  ∧ getRoot closed = None
  ∧ setWindow new_clipboard window closed = None.
Proof.
  unfold close. simpl.
  destruct (m_display s) eqn:E; simpl;
    unfold getShape, getCursorCenter, getCursorPos, getRoot, setWindow; simpl;
    rewrite ?E; repeat split.
Qed.

(** ** More on the cursor *)

(** X21.  After [updateScreenShape] with a width and a height the server
    can report (positive, within [int]), the centre [getCursorCenter]
    gives lies on the screen: its coordinates are at least the origin's
    and less than the width and the height.  [getCursorPos] falls back to
    that very point when the pointer query fails. *)
Theorem cursor_centre_is_on_screen
    (env : Environment) (width height : Z) (s : CXWindowsScreen) (d : Display) :
  m_display s = Some d →
  (0 < width < 2 ^ 31)%Z →
  (0 < height < 2 ^ 31)%Z →
  ∃ cx cy,
    getCursorCenter (updateScreenShape width height s) = Some (cx, cy)
    ∧ (0 <= cx < width)%Z ∧ (0 <= cy < height)%Z
    ∧ (XQueryPointer env (m_root s) = None →
       getCursorPos env (updateScreenShape width height s) = Some (cx, cy)).
Proof.
  intros Hd Hw Hh.
  assert (Hcw : (0 <= width / 2 < width)%Z).
  { split; [apply Z.div_pos; lia|apply Z.div_lt; lia]. }
  assert (Hch : (0 <= height / 2 < height)%Z).
  { split; [apply Z.div_pos; lia|apply Z.div_lt; lia]. }
  exists (width / 2)%Z, (height / 2)%Z.
  assert (E : getCursorCenter (updateScreenShape width height s)
              = Some (width / 2, height / 2)%Z).
  { unfold getCursorCenter. simpl. rewrite Hd, !shiftr_1_half.
    rewrite !SInt32_wrap_id; [done| |]; unfold in_SInt32; lia. }
  split; [exact E|]. split; [done|]. split; [done|].
  intros Hq. unfold getCursorPos, getRoot. simpl. rewrite Hd, Hq. exact E.
Qed.

Lemma cursor_centre_is_on_screen_witness :
  ∃ cx cy,
    getCursorCenter (updateScreenShape 1280 1024 bound_screen) = Some (cx, cy)
    ∧ (0 <= cx < 1280)%Z ∧ (0 <= cy < 1024)%Z
    ∧ (XQueryPointer quiet_env (m_root bound_screen) = None →
       getCursorPos quiet_env (updateScreenShape 1280 1024 bound_screen)
       = Some (cx, cy)).
Proof.
  apply (cursor_centre_is_on_screen quiet_env 1280 1024 bound_screen 1%N);
    [reflexivity|lia|lia].
Defined.

(** X22.  The bitmap data of the blank cursor: for a cursor size whose
    byte count fits an [int], [createBlankCursor] allocates [h] rows of
    [(w + 7) / 8] bytes, all zero; a row has room for the [w] bits of the
    cursor and less than one byte to spare. *)
Theorem blank_cursor_data_fits (w h : Z) :
  (0 <= w)%Z → (0 <= h)%Z →
  ((w + 7) / 8 * h < 2 ^ 31)%Z →
  (w + 7 < 2 ^ 32)%Z →
  blank_cursor_data w h = Some (replicate (Z.to_nat ((w + 7) / 8 * h)) 0%Z)
  ∧ (w <= 8 * ((w + 7) / 8) < w + 8)%Z.
Proof.
  intros Hw Hh Hsize Hw32.
  assert (Hrow : (0 <= (w + 7) / 8)%Z) by (apply Z.div_pos; lia).
  assert (Hbytes : (w <= 8 * ((w + 7) / 8) < w + 8)%Z).
  { pose proof (Z.div_mod (w + 7) 8 ltac:(lia)).
    pose proof (Z.mod_pos_bound (w + 7) 8 ltac:(lia)). lia. }
  split; [|exact Hbytes].
  assert (E : blank_cursor_size w h = ((w + 7) / 8 * h)%Z).
  { unfold blank_cursor_size, UInt32_wrap.
    rewrite (Z.mod_small (w + 7)) by lia.
    rewrite Z.shiftr_div_pow2 by lia. change (2 ^ 3)%Z with 8%Z.
    assert (0 <= (w + 7) / 8 * h)%Z by nia.
    rewrite Z.mod_small by lia.
    apply SInt32_wrap_id. unfold in_SInt32. lia. }
  unfold blank_cursor_data. rewrite E.
  destruct (Z.ltb_spec ((w + 7) / 8 * h) 0); [nia|done].
Qed.

Lemma blank_cursor_data_fits_witness :
  blank_cursor_data 16 16 = Some (replicate 32 0%Z)
  ∧ (16 <= 8 * ((16 + 7) / 8) < 16 + 8)%Z.
Proof.
  apply (blank_cursor_data_fits 16 16); vm_compute; (reflexivity || discriminate).
Defined.

(** ** More on the screen saver *)

(** X23.  [closeScreensaver] undoes what [openScreensaver] did, whichever
    way it was opened: opened with [notify], the screen saver is told to
    notify the screen's window and, on closing, to notify no window;
    opened without, it is disabled and, on closing, enabled again.  With
    no screen saver object [openScreensaver] fails its assertion, while
    [closeScreensaver] quietly does nothing. *)
Theorem closeScreensaver_undoes_openScreensaver
    (notify : bool) (window : Window) (ss : ScreenSaverMembers) :
  match m_screensaver ss with
  | Some calls =>
      ∃ ss1,
        openScreensaver notify window ss = Some ss1
        ∧ m_screensaverNotify ss1 = notify
        ∧ m_screensaver (closeScreensaver ss1)
          = Some (calls ++ (if notify then [SetNotify window; SetNotify XNone]
                            else [Disable; Enable]))
  | None =>
      openScreensaver notify window ss = None ∧ closeScreensaver ss = ss
  end.
Proof.
  unfold openScreensaver, closeScreensaver.
  destruct (m_screensaver ss) as [calls|] eqn:E; [|done].
  destruct notify; simpl; eexists; (split; [reflexivity|]); simpl;
    (split; [done|]); now rewrite <- app_assoc.
Qed.

(** ** Selection events and the rounds of the main loop *)

Lemma getClipboardID_found s selection (id : ClipboardID) c :
  m_clipboard s !! id = Some (Some c) →
  getSelection c = selection →
  (∀ (j : ClipboardID) c', j < id → m_clipboard s !! j = Some (Some c') →
                           getSelection c' ≠ selection) →
  getClipboardID s selection = id.
Proof.
  intros Hc Hs Hfirst. unfold getClipboardID, ClipboardID in *.
  destruct (getClipboardID_from_spec (m_clipboard s) selection 0)
    as [(k & c0 & -> & Hl & Hs0 & Hfirst0)|[_ Hnone]]; simpl.
  - destruct (Nat.lt_trichotomy k id) as [H|[H|H]]; [|done|].
    + now destruct (Hfirst k c0 H Hl).
    + now destruct (Hfirst0 id c H Hc).
  - now destruct (Hnone id c Hc).
Qed.

(** X24.  Selection events go to the first bound clipboard that has the
    event's selection, and to that one alone.  For a [SelectionClear] the
    clipboard is told it lost the selection at the event's time and the
    receiver's [onGrabClipboard] is called with the clipboard's id; for a
    [SelectionRequest] the request is added to the clipboard with the
    event's owner, requestor, target, time and property.  Either way the
    event is reported handled, and every other clipboard is as before. *)
Theorem selection_events_go_to_the_owning_clipboard
    (env : Environment) (s : CXWindowsScreen) (id : ClipboardID)
    (c : CXWindowsClipboard) (selection : Atom) :
  m_clipboard s !! id = Some (Some c) →
  getSelection c = selection →
  (∀ (j : ClipboardID) c', j < id → m_clipboard s !! j = Some (Some c') →
                           getSelection c' ≠ selection) →
  (∀ time,
     onPreDispatch env (SelectionClear selection time) s
     = Some (true,
             set_clipboards (<[id := Some (clipboard_lost env time c)]> (m_clipboard s)) s,
             [EOnGrabClipboard id]))
  ∧ (∀ owner requestor target time property,
       onPreDispatch env
         (SelectionRequest owner requestor selection target time property) s
       = Some (true,
               set_clipboards
                 (<[id := Some (clipboard_addRequest env owner requestor target
                                  time property c)]> (m_clipboard s)) s,
               [])).
Proof.
  intros Hc Hs Hfirst.
  pose proof (getClipboardID_found s selection id c Hc Hs Hfirst) as Hid.
  assert (Hne : Nat.eqb id (kClipboardEnd s) = false).
  { apply Nat.eqb_neq. unfold kClipboardEnd. apply lookup_lt_Some in Hc. lia. }
  split; intros; simpl; now rewrite Hid, Hne, Hc.
Qed.

Lemma selection_events_go_to_the_owning_clipboard_witness :
  onPreDispatch quiet_env (SelectionClear 2%N 900%N) bound_screen
  = Some (true, bound_screen, [EOnGrabClipboard 1]).
Proof.
  refine (proj1 (selection_events_go_to_the_owning_clipboard quiet_env bound_screen 1
                   _ 2%N eq_refl eq_refl _) 900%N).
  intros [|j] c' Hj; simpl; [now intros [= <-]|lia].
Defined.

(** X25.  A selection event for a selection that no bound clipboard has
    is not consumed: the screen is left as it is, the screen saver sees
    the event and the event handler's answer is returned. *)
Theorem selection_events_of_other_selections_pass_on
    (env : Environment) (s : CXWindowsScreen) (selection : Atom) :
  (∀ (j : ClipboardID) c', m_clipboard s !! j = Some (Some c') →
                           getSelection c' ≠ selection) →
  (∀ time,
     onPreDispatch env (SelectionClear selection time) s
     = Some (eventHandler_onPreDispatch env (SelectionClear selection time), s,
             [EScreensaverOnPreDispatch (SelectionClear selection time);
              EHandlerOnPreDispatch (SelectionClear selection time)]))
  ∧ (∀ owner requestor target time property,
       let e := SelectionRequest owner requestor selection target time property in
       onPreDispatch env e s
       = Some (eventHandler_onPreDispatch env e, s,
               [EScreensaverOnPreDispatch e; EHandlerOnPreDispatch e])).
Proof.
  intros Hnone.
  assert (Hid : getClipboardID s selection = kClipboardEnd s).
  { unfold getClipboardID, kClipboardEnd, ClipboardID in *.
    destruct (getClipboardID_from_spec (m_clipboard s) selection 0)
      as [(k & c0 & _ & Hl & Hs0 & _)|[-> _]]; [|done].
    now destruct (Hnone k c0 Hl). }
  split; intros; simpl; now rewrite Hid, Nat.eqb_refl.
Qed.

Lemma selection_events_of_other_selections_pass_on_witness :
  onPreDispatch quiet_env (SelectionClear 5%N 900%N) bound_screen
  = Some (false, bound_screen,
          [EScreensaverOnPreDispatch (SelectionClear 5%N 900%N);
           EHandlerOnPreDispatch (SelectionClear 5%N 900%N)]).
Proof.
  refine (proj1 (selection_events_of_other_selections_pass_on quiet_env bound_screen
                   5%N _) 900%N).
  intros [|[|j]] c'; simpl; try discriminate; intros [= <-]; discriminate.
Defined.





